(** * ppt_ai: section validation, layout geometry and slide assembly

    A shallow embedding of [models.py], [ppt_helpers.py], the tool
    functions of [ppt_creation_agent.py] and the routes of [hello.py].

    Conventions of the embedding.
    - Python numbers that hold inches or percentages are [float]s.  In the
      geometry they are modelled by exact rationals [Q]: the statements
      about regions are about the arithmetic the code writes down, not
      about binary rounding.  [int(x)] is truncation toward zero.
    - Whether a slide is accepted turns on a comparison of a sum with 98
      and 102, and there rounding decides.  Module [Binary64] embeds the
      two size validators over binary64 numbers, with the additions and
      comparisons of the machine; the tolerance band is stated there.
    - A JSON object describing a section is a record whose ['size'] entry
      is absent, [None] or a number, the three cases the code tells apart.
    - The disk is a finite map from paths to documents; every operation
      threads a [world] (the files, a log of the file operations
      performed, and the paths that cannot be written) and may raise.
      Paths are relative to the working directory and are keys as they
      are spelled: [output/../x] and [x] are two keys.  A path therefore
      stands for its file only where the name it is built from has no
      path separator, and the statements that tell files apart say so. *)

From Stdlib Require Import QArith Lqa ZArith Lia Floats.
From stdpp Require Import gmap strings list fin_maps.

(* Decimal literals such as [25.4] denote the nearest binary64 value, as
   they do in Python. *)
#[local] Set Warnings "-inexact-float".

(** ** Python helpers *)

Module Py.

(** Exceptions raised by the modelled code, one constructor per [raise]. *)
Inductive error :=
| NameRequired            (* ValueError("Name is required") *)
| PptNameRequired         (* ValueError("ppt_name is required") *)
| SlideTitleRequired      (* ValueError("slide_title is required") *)
| FileNotFound (file_name : string)   (* FileNotFoundError *)
| BothRowsAndColumns      (* "Cannot specify both rows and columns" *)
| ColumnCountMismatch (expected : Z)
| RowCountMismatch (expected : Z)
| MixedSizes              (* "Cannot mix sized and unsized sections" *)
| TotalSizeOutOfBand      (* "Section sizes must sum to approximately 100%" *)
| SizeOutOfRange          (* "Size must be between 0 and 100" *)
| DimensionNotPositive    (* "Dimension must be greater than 0" *)
| NotSubscriptable        (* TypeError: section['header'] on a non-dict *)
| TemplateMissing         (* Presentation(template) failed *)
| SaveFailed.             (* prs.save(path) failed: OSError *)

Inductive result (A : Type) :=
| Ok (a : A)
| Raise (e : error).
Arguments Ok {A} a.
Arguments Raise {A} e.

Definition is_ok {A} (r : result A) : bool :=
  match r with Ok _ => true | Raise _ => false end.

Definition rbind {A B} (r : result A) (k : A -> result B) : result B :=
  match r with Ok a => k a | Raise e => Raise e end.

(** [x < y] and [x > y] on numbers. *)
Definition Qltb (x y : Q) : bool := negb (Qle_bool y x).
Definition Qgtb (x y : Q) : bool := Qltb y x.

(** [sum(xs)]: a left fold starting from [0], here without rounding
    (see [Binary64.py_sum] for the sum the validators compare). *)
Definition py_sum (xs : list Q) : Q := fold_left Qplus xs 0%Q.

(** [int(x)] on a float: truncation toward zero. *)
Definition py_int (x : Q) : Z := Z.quot (Qnum x) (Zpos (Qden x)).

(** [len(xs)] as a number. *)
Definition len {A} (xs : list A) : Z := Z.of_nat (length xs).

(** Truthiness of an optional integer: [None] and [0] are falsy. *)
Definition truthy_int (v : option Z) : bool :=
  match v with
  | Some z => negb (z =? 0)%Z
  | None => false
  end.

(** Truthiness of a string: only the empty string is falsy. *)
Definition truthy_str (s : string) : bool :=
  match s with EmptyString => false | _ => true end.

End Py.

Import Py.

(** ** models.py *)

Module Models.

Inductive LayoutType := COLUMN | ROW.

(** [LayoutType.X.value] *)
Definition LayoutType_value (l : LayoutType) : string :=
  match l with COLUMN => "columns" | ROW => "rows" end.

Record Section := mkSection {
  header : string;
  content : list string;
  size : option Q
}.

(** [Section.validate_size] *)
Definition validate_size (v : option Q) : result (option Q) :=
  match v with
  | Some q =>
      if Qle_bool q 0 || Qgtb q 100 then Raise SizeOutOfRange else Ok v
  | None => Ok v
  end.

(** Construction of a [Section]: the field validator runs on [size]. *)
Definition Section_new (h : string) (c : list string) (s : option Q)
  : result Section :=
  rbind (validate_size s) (fun s' => Ok (mkSection h c s')).

Record SlideModel := mkSlideModel {
  slide_title : string;
  layout : option LayoutType;
  columns : option Z;
  rows : option Z;
  sections : option (list Section);
  ppt_name : option string
}.

(** [SlideModel.validate_dimension] *)
Definition validate_dimension (v : option Z) : result (option Z) :=
  match v with
  | Some z => if (z <=? 0)%Z then Raise DimensionNotPositive else Ok v
  | None => Ok v
  end.

(** The sizes that are not [None], in order. *)
Definition declared_sizes (v : list Section) : list Q :=
  omap size v.

(** [SlideModel.validate_sections]; [data_columns] and [data_rows] are
    [info.data['columns']] and [info.data['rows']], the already validated
    fields. *)
Definition validate_sections (v : option (list Section))
    (data_columns data_rows : option Z) : result (option (list Section)) :=
  match v with
  | None | Some [] => Ok v                          (* if not v: return v *)
  | Some secs =>
      if truthy_int data_rows && truthy_int data_columns then
        Raise BothRowsAndColumns
      else if truthy_int data_columns
              && negb (len secs =? default 0%Z data_columns)%Z then
        Raise (ColumnCountMismatch (default 0%Z data_columns))
      else if truthy_int data_rows
              && negb (len secs =? default 0%Z data_rows)%Z then
        Raise (RowCountMismatch (default 0%Z data_rows))
      else
        let sizes := declared_sizes secs in
        match sizes with
        | [] => Ok v
        | _ =>
            if negb (length sizes =? length secs)%nat then Raise MixedSizes
            else
              let total_size := py_sum sizes in
              if Qltb total_size 98 || Qgtb total_size 102 then
                Raise TotalSizeOutOfBand
              else Ok v
        end
  end.

(** Construction of a [SlideModel].  Fields are validated in declaration
    order; pydantic gathers the errors of all fields in one exception, of
    which the first is kept here: the constructor succeeds exactly when
    every field validator does. *)
Definition SlideModel_new (title : string) (lay : option LayoutType)
    (cols rws : option Z) (secs : option (list Section))
    (name : option string) : result SlideModel :=
  rbind (validate_dimension cols) (fun cols' =>
  rbind (validate_dimension rws) (fun rws' =>
  rbind (validate_sections secs cols' rws') (fun secs' =>
  Ok (mkSlideModel title lay cols' rws' secs' name)))).

End Models.

(** ** ppt_helpers.py: sections as dictionaries, and the regions drawn *)

Module Geometry.

(** The ['size'] entry of a section dictionary. *)
Inductive size_entry :=
| SizeMissing            (* no 'size' key *)
| SizeNone               (* 'size': None *)
| SizeNum (q : Q).       (* 'size': q *)

Record section_dict := mkDict {
  d_header : string;
  d_content : list string;
  d_size : size_entry
}.

(** [Section.model_dump()]: every field becomes a key, [size] included. *)
Definition model_dump (s : Models.Section) : section_dict :=
  mkDict (Models.header s) (Models.content s)
         (match Models.size s with Some q => SizeNum q | None => SizeNone end).

(** ['size' in section] *)
Definition has_size_key (d : section_dict) : bool :=
  match d_size d with SizeMissing => false | _ => true end.

(** [section['size']] when it is not [None] (the key being present). *)
Definition size_value (d : section_dict) : option Q :=
  match d_size d with SizeNum q => Some q | _ => None end.

(** [section.get('size')] when it is truthy: a number other than zero. *)
Definition truthy_size (d : section_dict) : option Q :=
  match d_size d with
  | SizeNum q => if Qeq_bool q 0 then None else Some q
  | _ => None
  end.

(** The arguments of one [create_section_box] call, in inches. *)
Record Region := mkRegion {
  r_x : Q;
  r_y : Q;
  r_width : Q;
  r_height : Q
}.

Definition area (r : Region) : Q := (r_width r * r_height r)%Q.

(** Swap the roles of [x]/[y] and of width/height. *)
Definition transpose (r : Region) : Region :=
  mkRegion (r_y r) (r_x r) (r_height r) (r_width r).

(** What is drawn for one section: the box of [create_section_box], and
    the header and bullet paragraphs of [add_section_content]. *)
Record SectionShape := mkShape {
  box : Region;
  header_text : string;
  paragraphs : list string
}.

Definition bullet : string := "â€¢ ".

Definition draw_section (r : Region) (d : section_dict) : SectionShape :=
  mkShape r (d_header d) (map (String.append bullet) (d_content d)).

Section Canvas.

(** The constants that both layout functions declare as locals. *)
Variables margin_x margin_y section_margin : Q.
(** The full usable width ([12.33]) and height ([5.0]). *)
Variables full_width full_height : Q.

Local Open Scope Q_scope.

(** The conditional expression shared by both layouts:
    [s.get('size', 100) / 100 if s.get('size') else 1.0 / len(sections)] *)
Definition size_factor (n : nat) (s : section_dict) : Q :=
  match truthy_size s with
  | Some q => q / 100
  | None => 1 / inject_Z (Z.of_nat n)
  end.

(** [sum(factor(s) for s in sections[:i])] *)
Definition previous_sections_size (sections : list section_dict) (i : nat) : Q :=
  py_sum (map (size_factor (length sections)) (take i sections)).

(** [create_column_layout], the values computed in the loop body for
    index [i]: [(start_x, margin_y, width, section_height)]. *)
Definition column_cell (sections : list section_dict) (i : nat)
    (section : section_dict) : Region :=
  let total_margin_space := section_margin * inject_Z (len sections - 1) in
  let total_width := full_width - total_margin_space in
  let section_height := full_height in
  let width := total_width * size_factor (length sections) section in
  let start_x := margin_x + total_width * previous_sections_size sections i
                 + section_margin * inject_Z (Z.of_nat i) in
  mkRegion start_x margin_y width section_height.

Definition column_geometry (sections : list section_dict) : list Region :=
  imap (column_cell sections) sections.

(** The box actually requested: width and height go through [int]. *)
Definition column_box (r : Region) : Region :=
  mkRegion (r_x r) (r_y r)
           (inject_Z (py_int (r_width r))) (inject_Z (py_int (r_height r))).

(** [create_column_layout(slide, sections)]: the regions drawn, in order. *)
Definition column_layout_on (sections : list section_dict) : list Region :=
  map column_box (column_geometry sections).

(** [create_row_layout], loop body for index [i]:
    [(margin_x, current_y, total_width, height)]. *)
Definition row_cell (sections : list section_dict) (i : nat)
    (section : section_dict) : Region :=
  let total_margin_space := section_margin * inject_Z (len sections - 1) in
  let total_width := full_width in
  let total_height := full_height - total_margin_space in
  let height := total_height * size_factor (length sections) section in
  let current_y := margin_y + total_height * previous_sections_size sections i
                   + section_margin * inject_Z (Z.of_nat i) in
  mkRegion margin_x current_y total_width height.

(** [create_row_layout(slide, sections)]: the regions drawn, in order;
    here the computed values are passed on as they are. *)
Definition row_layout_on (sections : list section_dict) : list Region :=
  imap (row_cell sections) sections.

End Canvas.

(** The literals of the source. *)
Definition MARGIN_X : Q := 0.5.
Definition MARGIN_Y : Q := 1.5.
Definition SECTION_MARGIN : Q := 0.2.
Definition FULL_WIDTH : Q := 12.33.
Definition FULL_HEIGHT : Q := 5.0.

Definition column_regions : list section_dict -> list Region :=
  column_geometry MARGIN_X MARGIN_Y SECTION_MARGIN FULL_WIDTH FULL_HEIGHT.

Definition create_column_layout : list section_dict -> list Region :=
  column_layout_on MARGIN_X MARGIN_Y SECTION_MARGIN FULL_WIDTH FULL_HEIGHT.

Definition create_row_layout : list section_dict -> list Region :=
  row_layout_on MARGIN_X MARGIN_Y SECTION_MARGIN FULL_WIDTH FULL_HEIGHT.

(** The shapes a layout adds to the slide. *)
Definition draw_layout (layout : list section_dict -> list Region)
    (sections : list section_dict) : list SectionShape :=
  zip_with draw_section (layout sections) sections.

(** The two text boxes of [add_section_content], from the arguments
    [(start_x, start_y, width, height)] it receives: the header box and,
    below it, the content box. *)
Definition header_box (r : Region) : Region :=
  mkRegion (r_x r + 0.1) (r_y r + 0.1) (r_width r - 0.2) 0.5.

Definition content_box (r : Region) : Region :=
  mkRegion (r_x r + 0.1) (r_y r + 0.7) (r_width r - 0.2) (r_height r - 0.8).

End Geometry.

(** ** The persisted documents and the operations on them *)

Module World.

Import Geometry.

Record Slide := mkSlide {
  title_text : string;
  subtitle_text : option string;
  shapes : list SectionShape
}.

(** A document is the sequence of its slides. *)
Definition Presentation := list Slide.

(** File operations, logged in the order they happen. *)
Inductive io_event :=
| Probe (path : string)      (* os.path.exists(path) *)
| Open (path : string)       (* Presentation(path) *)
| Save (path : string)       (* prs.save(path) *)
| Remove (path : string).    (* os.remove(path) *)

(** The state of the disk: the documents by path, the operations performed
    so far, and the paths at which no file can be written (the directory is
    missing or not writable: [output/reports/q1.pptx] where [output/reports]
    does not exist). *)
Record world := World {
  files : gmap string Presentation;
  trace : list io_event;
  unwritable : gset string
}.

(** A disk on which every path can be written. *)
Definition mkWorld (files : gmap string Presentation) (trace : list io_event) : world :=
  World files trace ∅.

Definition log (e : io_event) (w : world) : world :=
  World (files w) (trace w ++ [e]) (unwritable w).

(** A computation that reads and writes files and may raise; the world
    it leaves behind is kept when it raises. *)
Definition io (A : Type) : Type := world -> result A * world.

Definition ret {A} (a : A) : io A := fun w => (Ok a, w).

Definition raise {A} (e : error) : io A := fun w => (Raise e, w).

Definition bind {A B} (m : io A) (k : A -> io B) : io B :=
  fun w =>
    match m w with
    | (Ok a, w') => k a w'
    | (Raise e, w') => (Raise e, w')
    end.

Definition lift {A} (r : result A) : io A := fun w => (r, w).

(** [x ← m; k] and [m;; k] below are stdpp's notations at these instances. *)
#[export] Instance io_ret : MRet io := @ret.
#[export] Instance io_bind : MBind io := fun A B k m => bind m k.

(** [os.path.exists(path)] *)
Definition path_exists (path : string) : io bool :=
  fun w => (Ok (bool_decide (is_Some (files w !! path))), log (Probe path) w).

(** [Presentation(path)]: the document is read into memory. *)
Definition open_presentation (path : string) (missing : error) : io Presentation :=
  fun w =>
    match files w !! path with
    | Some prs => (Ok prs, log (Open path) w)
    | None => (Raise missing, log (Open path) w)
    end.

(** [prs.save(path)]: the file is replaced as a whole.  Where the path
    cannot be written the call raises, and nothing is written. *)
Definition save (path : string) (prs : Presentation) : io unit :=
  fun w =>
    if bool_decide (path ∈ unwritable w) then (Raise SaveFailed, w)
    else (Ok tt, log (Save path)
                   (World (<[path := prs]> (files w)) (trace w) (unwritable w))).

(** [os.remove(path)] *)
Definition remove (path : string) : io unit :=
  fun w => (Ok tt, log (Remove path)
                     (World (delete path (files w)) (trace w) (unwritable w))).

(** [for x in xs: body(x)] *)
Fixpoint for_each {A} (body : A -> io unit) (xs : list A) : io unit :=
  match xs with
  | [] => ret tt
  | x :: rest => body x;; for_each body rest
  end.

Definition TEMPLATE : string := "ppt_templates/bain_template.pptx".

(** [os.path.join(os.getcwd(), "output", file_name)], relative to the
    working directory.  For a [file_name] with a path separator in it the
    file meant can lie outside [output/], and can be the template. *)
Definition output_path (file_name : string) : string :=
  String.append "output/" file_name.

(** [f"{name}.pptx"] *)
Definition pptx (name : string) : string := String.append name ".pptx".

End World.

(** ** ppt_helpers.py: add_slide, create_ppt, delete_ppt *)

Module PptHelpers.

Import Geometry World.

(** An element of the [sections] argument: a dictionary, or a pydantic
    [Section] object (the [hasattr(section, 'model_dump')] case). *)
Inductive section_arg :=
| ArgDict (d : section_dict)
| ArgModel (s : Models.Section).

(** "Convert Pydantic models to dictionaries if needed" *)
Definition process (a : section_arg) : section_dict :=
  match a with
  | ArgDict d => d
  | ArgModel s => model_dump s
  end.

(** The size checks of [add_slide] on [processed_sections]. *)
Definition check_sizes (processed_sections : list section_dict) : result unit :=
  let has_sizes := existsb has_size_key processed_sections in
  if has_sizes then
    if negb (forallb has_size_key processed_sections) then Raise MixedSizes
    else
      let sizes := omap size_value processed_sections in
      match sizes with
      | [] => Ok tt
      | _ =>
          let total_size := py_sum sizes in
          if Qltb total_size 98 || Qgtb total_size 102 then
            Raise TotalSizeOutOfBand
          else Ok tt
      end
  else Ok tt.

(** "Validate layout parameters" and the size checks: everything
    [add_slide] checks between the file lookup and opening the file. *)
Definition validate_layout (columns rows : option Z)
    (sections : list section_arg) : result unit :=
  if truthy_int columns && truthy_int rows then Raise BothRowsAndColumns
  else if truthy_int columns && negb (len sections =? default 0%Z columns)%Z then
    Raise (ColumnCountMismatch (default 0%Z columns))
  else if truthy_int rows && negb (len sections =? default 0%Z rows)%Z then
    Raise (RowCountMismatch (default 0%Z rows))
  else check_sizes (map process sections).

(** The layout functions index each section as a dictionary
    ([section['header']] in [add_section_content]); an element that is
    not one makes the call raise. *)
Definition as_dict (a : section_arg) : option section_dict :=
  match a with ArgDict d => Some d | ArgModel _ => None end.

Definition run_layout (layout : list section_dict -> list Region)
    (sections : list section_arg) : result (list SectionShape) :=
  match mapM as_dict sections with
  | Some ds => Ok (draw_layout layout ds)
  | None => Raise NotSubscriptable
  end.

(** The slide built in memory once validation has passed. *)
Definition build_slide (slide_title : string) (columns rows : option Z)
    (sections : list section_arg) : result Slide :=
  if truthy_int columns then
    rbind (run_layout create_column_layout sections)
          (fun shp => Ok (mkSlide slide_title None shp))
  else if truthy_int rows then
    rbind (run_layout create_row_layout sections)
          (fun shp => Ok (mkSlide slide_title None shp))
  else Ok (mkSlide slide_title None []).

(** [add_slide(name, slide_title, columns=None, rows=None, sections=[])] *)
Definition add_slide (name slide_title : string) (columns rows : option Z)
    (sections : list section_arg) : io unit :=
  if negb (truthy_str name) then raise PptNameRequired
  else if negb (truthy_str slide_title) then raise SlideTitleRequired
  else
    let file_name := pptx name in
    let file_path := output_path file_name in
    found ← path_exists file_path;
    if negb found then raise (FileNotFound file_name)
    else
      lift (validate_layout columns rows sections);;
      prs ← open_presentation file_path (FileNotFound file_name);
      slide ← lift (build_slide slide_title columns rows sections);
      save file_path (prs ++ [slide]).

(** One element of the [slides] argument of [create_ppt]. *)
Record slide_data := mkSlideData {
  sd_slide_title : string;
  sd_layout : option string;
  sd_columns : option Z;
  sd_rows : option Z;
  sd_sections : list section_arg
}.

(** The body of the loop over [slides]: which [add_slide] call is made. *)
Definition add_slide_data (name : string) (sd : slide_data) : io unit :=
  let slide_title := sd_slide_title sd in
  let layout := sd_layout sd in
  let columns := sd_columns sd in
  let rows := sd_rows sd in
  let sections := sd_sections sd in
  if bool_decide (layout = Some (Models.LayoutType_value Models.COLUMN))
     && truthy_int columns then
    add_slide name slide_title columns None sections
  else if bool_decide (layout = Some (Models.LayoutType_value Models.ROW))
          && truthy_int rows then
    add_slide name slide_title None rows sections
  else
    match sections with
    | _ :: _ => add_slide name slide_title (Some (len sections)) None sections
    | [] => add_slide name slide_title None None []
    end.

Definition title_slide (title : string) : Slide :=
  mkSlide title (Some "Created with PowerPoint Manipulation App") [].

(** [create_ppt(name, title='New Presentation', slides=None)] *)
Definition create_ppt (name title : string) (slides : list slide_data) : io string :=
  if negb (truthy_str name) then raise NameRequired
  else
    prs ← open_presentation TEMPLATE TemplateMissing;
    let prs := prs ++ [title_slide title] in
    let file_name := pptx name in
    let file_path := output_path file_name in
    save file_path prs;;
    for_each (add_slide_data name) slides;;
    ret file_path.

(** [delete_ppt(name)] *)
Definition delete_ppt (name : string) : io unit :=
  if negb (truthy_str name) then raise NameRequired
  else
    let file_name := pptx name in
    let file_path := output_path file_name in
    found ← path_exists file_path;
    if negb found then raise (FileNotFound file_name)
    else remove file_path.

(** The ['presentation'] object of the JSON input. *)
Record presentation_data := mkPresentationData {
  pd_name : string;
  pd_title : option string;
  pd_slides : list slide_data
}.

(** The two errors [create_ppt_from_json] raises itself, and those that
    reach it from [create_ppt] and [add_slide]. *)
Inductive json_error :=
| NoPresentationObject       (* "JSON must contain a 'presentation' object" *)
| PresentationNameRequired   (* "Presentation name is required" *)
| Raised (e : error).

Inductive json_result :=
| JsonOk (file_path : string)
| JsonRaise (e : json_error).

(** The body of the loop of [create_ppt_from_json]: a slide without a
    title is skipped, the others are added as in [create_ppt]. *)
Definition add_json_slide (name : string) (sd : slide_data) : io unit :=
  if negb (truthy_str (sd_slide_title sd)) then mret tt
  else add_slide_data name sd.

(** [create_ppt_from_json(json_data)]; [None] stands for a missing, [None]
    or empty ['presentation'] entry. *)
Definition create_ppt_from_json (json_data : option presentation_data)
    : world -> json_result * world :=
  fun w =>
    match json_data with
    | None => (JsonRaise NoPresentationObject, w)
    | Some presentation_data =>
        let name := pd_name presentation_data in
        let title := default "New Presentation" (pd_title presentation_data) in
        let slides := pd_slides presentation_data in
        if negb (truthy_str name) then (JsonRaise PresentationNameRequired, w)
        else
          match (file_path ← create_ppt name title [];
                 for_each (add_json_slide name) slides;;
                 mret file_path) w with
          | (Ok file_path, w') => (JsonOk file_path, w')
          | (Raise e, w') => (JsonRaise (Raised e), w')
          end
    end.

End PptHelpers.

(** ** The size checks on binary64 numbers

    The two size validators again, with sizes as the code has them:
    Python [float]s, that is binary64 numbers.  [sum] adds from left to
    right starting from [0], and every addition rounds to the nearest
    binary64 value (CPython up to 3.11; later versions carry a correction
    term along and round once more at the end); [<], [<=] and [>] are the
    IEEE comparisons, false whenever an operand is NaN.  A size given as
    a JSON integer is the float of the same value. *)

Module Binary64.

(** [sum(xs)] *)
Definition py_sum (xs : list float) : float :=
  fold_left PrimFloat.add xs 0%float.

Record Section := mkSection {
  header : string;
  content : list string;
  size : option float
}.

(** [Section.validate_size] *)
Definition validate_size (v : option float) : result (option float) :=
  match v with
  | Some x =>
      if PrimFloat.leb x 0 || PrimFloat.ltb 100 x then Raise SizeOutOfRange
      else Ok v
  | None => Ok v
  end.

Definition Section_new (h : string) (c : list string) (s : option float)
  : result Section :=
  rbind (validate_size s) (fun s' => Ok (mkSection h c s')).

Record SlideModel := mkSlideModel {
  slide_title : string;
  layout : option Models.LayoutType;
  columns : option Z;
  rows : option Z;
  sections : option (list Section);
  ppt_name : option string
}.

(** [[section.size for section in v if section.size is not None]] *)
Definition declared_sizes (v : list Section) : list float :=
  omap size v.

(** [SlideModel.validate_sections] *)
Definition validate_sections (v : option (list Section))
    (data_columns data_rows : option Z) : result (option (list Section)) :=
  match v with
  | None | Some [] => Ok v                          (* if not v: return v *)
  | Some secs =>
      if truthy_int data_rows && truthy_int data_columns then
        Raise BothRowsAndColumns
      else if truthy_int data_columns
              && negb (len secs =? default 0%Z data_columns)%Z then
        Raise (ColumnCountMismatch (default 0%Z data_columns))
      else if truthy_int data_rows
              && negb (len secs =? default 0%Z data_rows)%Z then
        Raise (RowCountMismatch (default 0%Z data_rows))
      else
        let sizes := declared_sizes secs in
        match sizes with
        | [] => Ok v
        | _ =>
            if negb (length sizes =? length secs)%nat then Raise MixedSizes
            else
              let total_size := py_sum sizes in
              if PrimFloat.ltb total_size 98 || PrimFloat.ltb 102 total_size then
                Raise TotalSizeOutOfBand
              else Ok v
        end
  end.

(** Construction of a [SlideModel], field by field. *)
Definition SlideModel_new (title : string) (lay : option Models.LayoutType)
    (cols rws : option Z) (secs : option (list Section))
    (name : option string) : result SlideModel :=
  rbind (Models.validate_dimension cols) (fun cols' =>
  rbind (Models.validate_dimension rws) (fun rws' =>
  rbind (validate_sections secs cols' rws') (fun secs' =>
  Ok (mkSlideModel title lay cols' rws' secs' name)))).

(** The ['size'] entry of a section dictionary. *)
Inductive size_entry :=
| SizeMissing            (* no 'size' key *)
| SizeNone               (* 'size': None *)
| SizeNum (x : float).   (* 'size': x *)

Record section_dict := mkDict {
  d_header : string;
  d_content : list string;
  d_size : size_entry
}.

(** [Section.model_dump()] *)
Definition model_dump (s : Section) : section_dict :=
  mkDict (header s) (content s)
         (match size s with Some x => SizeNum x | None => SizeNone end).

(** ['size' in section] *)
Definition has_size_key (d : section_dict) : bool :=
  match d_size d with SizeMissing => false | _ => true end.

(** [section['size']] when it is not [None]. *)
Definition size_value (d : section_dict) : option float :=
  match d_size d with SizeNum x => Some x | _ => None end.

Inductive section_arg :=
| ArgDict (d : section_dict)
| ArgModel (s : Section).

Definition process (a : section_arg) : section_dict :=
  match a with
  | ArgDict d => d
  | ArgModel s => model_dump s
  end.

(** The size checks of [add_slide] on [processed_sections]. *)
Definition check_sizes (processed_sections : list section_dict) : result unit :=
  let has_sizes := existsb has_size_key processed_sections in
  if has_sizes then
    if negb (forallb has_size_key processed_sections) then Raise MixedSizes
    else
      let sizes := omap size_value processed_sections in
      match sizes with
      | [] => Ok tt
      | _ =>
          let total_size := py_sum sizes in
          if PrimFloat.ltb total_size 98 || PrimFloat.ltb 102 total_size then
            Raise TotalSizeOutOfBand
          else Ok tt
      end
  else Ok tt.

(** The layout and size checks of [add_slide]. *)
Definition validate_layout (columns rows : option Z)
    (sections : list section_arg) : result unit :=
  if truthy_int columns && truthy_int rows then Raise BothRowsAndColumns
  else if truthy_int columns && negb (len sections =? default 0%Z columns)%Z then
    Raise (ColumnCountMismatch (default 0%Z columns))
  else if truthy_int rows && negb (len sections =? default 0%Z rows)%Z then
    Raise (RowCountMismatch (default 0%Z rows))
  else check_sizes (map process sections).

End Binary64.

(** ** ppt_creation_agent.py: the tool functions *)

Module Agent.

Import Geometry World.

(** The dictionary a tool function returns. *)
Inductive tool_result :=
| Message          (* {"message": ...} *)
| FilePath (p : string)
| ErrorPayload (e : error).   (* {"error": str(e)} *)

(** [try: ... except Exception as e: return {"error": str(e)}] *)
Definition catching {A} (m : io A) (on_ok : A -> tool_result) : world -> tool_result * world :=
  fun w =>
    match m w with
    | (Ok a, w') => (on_ok a, w')
    | (Raise e, w') => (ErrorPayload e, w')
    end.

(** [add_slide(ppt_name, slide_title, columns, rows, layout, sections)];
    the [columns] and [rows] arguments are accepted and not read. *)
Definition add_slide (ppt_name slide_title : string) (columns rows : option Z)
    (layout : option string) (sections : option (list PptHelpers.section_arg))
    : world -> tool_result * world :=
  catching
    (let sections := default [] sections in
     if bool_decide (layout = Some "COLUMN") then
       PptHelpers.add_slide ppt_name slide_title (Some (len sections)) None sections
     else if bool_decide (layout = Some "ROW") then
       PptHelpers.add_slide ppt_name slide_title None (Some (len sections)) sections
     else
       PptHelpers.add_slide ppt_name slide_title None None [])
    (fun _ => Message).

(** [create_presentation(name, title, slides)] *)
Definition create_presentation (name title : string)
    (slides : list PptHelpers.slide_data) : world -> tool_result * world :=
  catching (PptHelpers.create_ppt name title slides) FilePath.

(** [delete_presentation(name)] *)
Definition delete_presentation (name : string) : world -> tool_result * world :=
  catching (PptHelpers.delete_ppt name) (fun _ => Message).

(** What [save_presentation] returns: [{"file_path": ...}], or the error
    "Presentation '<name>' does not exist." *)
Inductive save_result :=
| SavedAt (file_path : string)
| DoesNotExist (name : string).

(** [save_presentation(name)]: a lookup of [output/<name>.pptx]. *)
Definition save_presentation (name : string) : world -> save_result * world :=
  fun w =>
    let file_path := output_path (pptx name) in
    match path_exists file_path w with
    | (Ok true, w') => (SavedAt file_path, w')
    | (_, w') => (DoesNotExist name, w')
    end.

(** *** create_presentation_from_prompt

    The language model is outside the program: a run is described by the
    replies the client returns, in order.  A reply either asks for a
    function call or is a plain message with its [finish_reason]. *)

(** [needle in haystack] on strings. *)
Definition contains (needle haystack : string) : bool :=
  match String.index 0 needle haystack with Some _ => true | None => false end.

(** The dictionary [json.loads(arguments)] yields: the keys the tool
    functions take, and whether any other key is present. *)
Record function_args := mkArgs {
  a_name : option string;
  a_title : option string;
  a_slides : option (list PptHelpers.slide_data);
  a_ppt_name : option string;
  a_slide_title : option string;
  a_columns : option Z;
  a_rows : option Z;
  a_layout : option string;
  a_sections : option (list PptHelpers.section_arg);
  a_other_keys : bool
}.

(** Whether a key is in the dictionary. *)
Definition present {A} (v : option A) : bool :=
  match v with Some _ => true | None => false end.

Inductive reply :=
| FunctionCall (function_name : string) (arguments : option function_args)
    (* [None]: the arguments are not valid JSON *)
| Plain (finish_reason : string).

(** What a tool call contributes to [presentation_data]. *)
Inductive payload :=
| ToolAnswer (r : tool_result)
| SaveAnswer (r : save_result)
| CallError.    (* {"error": str(e)} of the inner [except] *)

Inductive run_status := InProgress | Error | Completed.

Record prompt_data := mkData {
  status : run_status;
  answer : option payload
}.

(** The call of a tool function with the decoded dictionary as its keyword
    arguments: [None] when the call raises [TypeError], a
    required argument missing or an unexpected keyword given. *)
Definition call_create_presentation (a : function_args)
    : option (world -> payload * world) :=
  match a_name a, a_title a with
  | Some name, Some title =>
      if present (a_ppt_name a) || present (a_slide_title a)
         || present (a_columns a) || present (a_rows a)
         || present (a_layout a) || present (a_sections a) || a_other_keys a
      then None
      else Some (fun w =>
                   let '(r, w') := create_presentation name title
                                     (default [] (a_slides a)) w in
                   (ToolAnswer r, w'))
  | _, _ => None
  end.

Definition call_add_slide (a : function_args) : option (world -> payload * world) :=
  match a_ppt_name a, a_slide_title a with
  | Some ppt_name, Some slide_title =>
      if present (a_name a) || present (a_title a) || present (a_slides a)
         || a_other_keys a
      then None
      else Some (fun w =>
                   let '(r, w') := add_slide ppt_name slide_title (a_columns a)
                                     (a_rows a) (a_layout a) (a_sections a) w in
                   (ToolAnswer r, w'))
  | _, _ => None
  end.

Definition only_name (a : function_args) : option string :=
  match a_name a with
  | Some name =>
      if present (a_title a) || present (a_slides a)
         || present (a_ppt_name a) || present (a_slide_title a)
         || present (a_columns a) || present (a_rows a)
         || present (a_layout a) || present (a_sections a) || a_other_keys a
      then None
      else Some name
  | None => None
  end.

Definition call_save_presentation (a : function_args)
    : option (world -> payload * world) :=
  name ← only_name a;
  Some (fun w => let '(r, w') := save_presentation name w in (SaveAnswer r, w')).

Definition call_delete_presentation (a : function_args)
    : option (world -> payload * world) :=
  name ← only_name a;
  Some (fun w => let '(r, w') := delete_presentation name w in (ToolAnswer r, w')).

(** The inner [try]: the call, and the new [presentation_data]. *)
Definition attempt (status_after : run_status)
    (call : option (world -> payload * world)) (w : world) : prompt_data * world :=
  match call with
  | Some f => let '(r, w') := f w in (mkData status_after (Some r), w')
  | None => (mkData Error (Some CallError), w)
  end.

(** The chain of [if "..." in str(function_name)]. *)
Definition handle_function_call (function_name : string) (a : function_args)
    (data : prompt_data) (w : world) : prompt_data * world :=
  if contains "create_presentation" function_name then
    attempt InProgress (call_create_presentation a) w
  else if contains "add_slide" function_name then
    attempt InProgress (call_add_slide a) w
  else if contains "save_presentation" function_name then
    attempt Completed (call_save_presentation a) w
  else if contains "delete_presentation" function_name then
    attempt Completed (call_delete_presentation a) w
  else (data, w).

Inductive prompt_outcome :=
| Returned (data : prompt_data)
| JsonError                     (* [json.loads] raised; the function raises *)
| Waiting (data : prompt_data). (* the loop is asking for the next reply *)

(** The [while] loop, over the replies still to come. *)
Fixpoint run_prompt (replies : list reply) (data : prompt_data) (w : world)
    : prompt_outcome * world :=
  match status data with
  | Completed => (Returned data, w)
  | InProgress | Error =>
      match replies with
      | [] => (Waiting data, w)
      | FunctionCall _ None :: _ => (JsonError, w)
      | FunctionCall function_name (Some a) :: rest =>
          let '(data', w') := handle_function_call function_name a data w in
          run_prompt rest data' w'
      | Plain finish_reason :: rest =>
          if String.eqb finish_reason "stop"
          then run_prompt rest (mkData Completed (answer data)) w
          else run_prompt rest data w
      end
  end.

(** [create_presentation_from_prompt(prompt, client)] *)
Definition create_presentation_from_prompt (replies : list reply)
    : world -> prompt_outcome * world :=
  run_prompt replies (mkData InProgress None).

End Agent.

(** ** hello.py: the two routes of the first web application *)

Module Hello.

Import World.

(** The JSON body of a request: the keys the routes read. *)
Record request_json := mkRequest {
  rq_name : option string;
  rq_title : option string
}.

Inductive body :=
| NameRequiredBody                               (* {"error": "Name is required"} *)
| NotFoundBody (file_name : string)              (* {"error": "File '...' not found"} *)
| CreatedBody (file_name title file_path : string)
| DeletedBody (file_name : string).

(** A response: the JSON body and the HTTP status. *)
Definition response : Type := body * Z.

Definition TEMPLATE : string := "bain_template.pptx".

(** [os.path.join(os.getcwd(), file_name)]: files live in the working
    directory, where the template is too. *)
Definition cwd_path (file_name : string) : string := file_name.

(** The route [/create_ppt]. *)
Definition create_ppt (rq : request_json) : io response :=
  let name := default "" (rq_name rq) in
  let title := default "New Presentation" (rq_title rq) in
  if negb (truthy_str name) then mret (NameRequiredBody, 400%Z)
  else
    prs ← open_presentation TEMPLATE TemplateMissing;
    let prs := prs ++ [mkSlide title (Some "Created with PowerPoint Manipulation App") []] in
    let file_name := pptx name in
    let file_path := cwd_path file_name in
    save file_path prs;;
    mret (CreatedBody file_name title file_path, 200%Z).

(** The route [/delete_ppt]. *)
Definition delete_ppt (rq : request_json) : io response :=
  let name := default "" (rq_name rq) in
  if negb (truthy_str name) then mret (NameRequiredBody, 400%Z)
  else
    let file_name := pptx name in
    let file_path := cwd_path file_name in
    found ← path_exists file_path;
    if negb found then mret (NotFoundBody file_name, 404%Z)
    else
      remove file_path;;
      mret (DeletedBody file_name, 200%Z).

End Hello.

(** ** Notions used in the statements *)

Module Notions.

Import Models Geometry World PptHelpers.

(** A section of the typed model is sized when its [size] is not [None]. *)
Definition sized (s : Section) : Prop := is_Some (size s).
Definition unsized (s : Section) : Prop := size s = None.

(** A section dictionary carries a size when a number is stored under
    ['size']; a missing key and [None] both leave it unsized. *)
Definition dict_sized (d : section_dict) : Prop := is_Some (size_value d).
Definition dict_unsized (d : section_dict) : Prop := size_value d = None.


(** Two regions that denote the same rectangle. *)
Definition same_region (r r' : Region) : Prop :=
  (r_x r == r_x r' /\ r_y r == r_y r' /\
   r_width r == r_width r' /\ r_height r == r_height r')%Q.

(** [|x - y| < eps] *)
Definition close_to (eps x y : Q) : Prop := (y - eps < x /\ x < y + eps)%Q.

(** What the layout functions take for a section without a size:
    [section.get('size')] is falsy. *)
Definition plain (d : section_dict) : Prop := truthy_size d = None.

Definition no_negative_size (d : section_dict) : Prop :=
  forall q, truthy_size d = Some q -> (0 <= q)%Q.

(** The share of the tiling axis a section declares, [1] without a size. *)
Definition share (d : section_dict) : Q :=
  match size_value d with Some q => (q / 100)%Q | None => 1%Q end.

(** The errors [add_slide] raises from its own checks: a missing name or
    title, a missing file, and the layout and size rules. *)
Definition is_validation_error (e : error) : bool :=
  match e with
  | PptNameRequired | SlideTitleRequired | FileNotFound _
  | BothRowsAndColumns | ColumnCountMismatch _ | RowCountMismatch _
  | MixedSizes | TotalSizeOutOfBand => true
  | _ => false
  end.

(** File operations that read or write a document; a probe for
    existence does neither. *)
Definition touches_document (ev : io_event) : bool :=
  match ev with
  | Probe _ => false
  | Open _ | Save _ | Remove _ => true
  end.

(** The slide a document ends with. *)
Definition last_slide (w : world) (path : string) : option Slide :=
  prs ← files w !! path; last prs.

(** What [add_slide] makes of its arguments, the file apart: the error of
    its title, layout or size checks or of the layout function, or else
    the slide it appends. *)
Definition new_slide (slide_title : string) (columns rows : option Z)
    (sections : list section_arg) : result Slide :=
  if negb (truthy_str slide_title) then Raise SlideTitleRequired
  else rbind (validate_layout columns rows sections)
             (fun _ => build_slide slide_title columns rows sections).

(** The same for one element of the [slides] argument of [create_ppt],
    with the arguments its loop passes to [add_slide]. *)
Definition slide_of (sd : slide_data) : result Slide :=
  if bool_decide (sd_layout sd = Some (LayoutType_value COLUMN))
     && truthy_int (sd_columns sd) then
    new_slide (sd_slide_title sd) (sd_columns sd) None (sd_sections sd)
  else if bool_decide (sd_layout sd = Some (LayoutType_value ROW))
          && truthy_int (sd_rows sd) then
    new_slide (sd_slide_title sd) None (sd_rows sd) (sd_sections sd)
  else
    match sd_sections sd with
    | _ :: _ => new_slide (sd_slide_title sd) (Some (len (sd_sections sd))) None
                  (sd_sections sd)
    | [] => new_slide (sd_slide_title sd) None None []
    end.

(** The file operations of one [add_slide] call that appends a slide. *)
Definition slide_added (path : string) : list io_event :=
  [Probe path; Open path; Save path].

(** A name without a path separator: [output/<name>.pptx] is then a file
    of the [output] directory itself. *)
Definition plain_name (name : string) : bool :=
  match String.index 0 "/" name with Some _ => false | None => true end.

Definition bottom_edge (r : Region) : Q := (r_y r + r_height r)%Q.


(** A slide of the JSON input that has a title. *)
Definition titled (sd : slide_data) : bool := truthy_str (sd_slide_title sd).

(** What an [io] outcome is for [create_ppt_from_json]. *)
Definition as_json_result (r : result string) : json_result :=
  match r with
  | Ok file_path => JsonOk file_path
  | Raise e => JsonRaise (Raised e)
  end.

(** The replies that end the loop of [create_presentation_from_prompt]:
    a plain reply that finished with "stop", and a call that is
    dispatched to [save_presentation] or [delete_presentation] and binds
    its arguments. *)
Definition final_reply (r : Agent.reply) : bool :=
  match r with
  | Agent.Plain finish_reason => String.eqb finish_reason "stop"
  | Agent.FunctionCall function_name (Some a) =>
      negb (Agent.contains "create_presentation" function_name)
      && negb (Agent.contains "add_slide" function_name)
      && (Agent.contains "save_presentation" function_name
          || Agent.contains "delete_presentation" function_name)
      && bool_decide (is_Some (Agent.only_name a))
  | Agent.FunctionCall _ None => false
  end.

(** A reply whose arguments, if any, are valid JSON. *)
Definition decodes (r : Agent.reply) : bool :=
  match r with
  | Agent.FunctionCall _ None => false
  | _ => true
  end.

(** Whether the result of the loop has a ["file_path"] entry. *)
Definition carries_file_path (data : Agent.prompt_data) : bool :=
  match Agent.answer data with
  | Some (Agent.ToolAnswer (Agent.FilePath _))
  | Some (Agent.SaveAnswer (Agent.SavedAt _)) => true
  | _ => false
  end.

(** Whether the loop has returned. *)
Definition returned (o : Agent.prompt_outcome) : bool :=
  match o with Agent.Returned _ => true | _ => false end.



(** [total] is what adding [xs] one after the other gives: nothing added
    is [0], and one more number is added to the total so far, rounded. *)
Inductive float_sum : list float -> float -> Prop :=
| float_sum_nil : float_sum [] 0%float
| float_sum_snoc (xs : list float) (total x : float) :
    float_sum xs total -> float_sum (xs ++ [x]) (PrimFloat.add total x).



End Notions.

(** * Properties *)

Import Models Geometry World PptHelpers Notions.

(** ** Comparisons on numbers *)

Lemma Qltb_lt (x y : Q) : Qltb x y = true <-> (x < y)%Q.
Proof.
  unfold Qltb. rewrite negb_true_iff, <- not_true_iff_false, Qle_bool_iff.
  split; [apply Qnot_le_lt | apply Qlt_not_le].
Qed.

Lemma Qgtb_gt (x y : Q) : Qgtb x y = true <-> (y < x)%Q.
Proof. apply Qltb_lt. Qed.

Lemma out_of_band_false (t : Q) :
  Qltb t 98 || Qgtb t 102 = false <-> (98 <= t <= 102)%Q.
Proof.
  rewrite orb_false_iff, <- !not_true_iff_false, Qltb_lt, Qgtb_gt.
  split.
  - intros [H1 H2]. split; apply Qnot_lt_le; assumption.
  - intros [H1 H2]. split; apply Qle_not_lt; assumption.
Qed.

Lemma len_fmap {A B} (f : A -> B) (l : list A) : len (f <$> l) = len l.
Proof. unfold len. by rewrite length_fmap. Qed.

(** ** Which sizes the validators see *)

Lemma omap_length_le {A B} (f : A -> option B) (l : list A) :
  (length (omap f l) <= length l)%nat.
Proof.
  induction l as [|x l IH]; csimpl; [lia|].
  destruct (f x); csimpl; lia.
Qed.

Lemma omap_length_full {A B} (f : A -> option B) (l : list A) :
  length (omap f l) = length l <-> Forall (fun x => is_Some (f x)) l.
Proof.
  induction l as [|x l IH]; csimpl.
  - split; [constructor | reflexivity].
  - pose proof (omap_length_le f l) as Hle.
    destruct (f x) as [y|] eqn:Hx; csimpl; split; intros H.
    + constructor; [rewrite Hx; eauto | apply IH; lia].
    + inversion H; subst. f_equal. by apply IH.
    + lia.
    + inversion H as [|? ? [y Hy] ?]; subst. congruence.
Qed.

Lemma omap_nil_iff {A B} (f : A -> option B) (l : list A) :
  omap f l = [] <-> Forall (fun x => f x = None) l.
Proof.
  induction l as [|x l IH]; csimpl.
  - split; [constructor | reflexivity].
  - destruct (f x) as [y|] eqn:Hx; split; intros H.
    + discriminate.
    + inversion H; congruence.
    + constructor; [assumption | by apply IH].
    + inversion H; subst. by apply IH.
Qed.

(** The sets of sections accepted by each validator. *)

Lemma typed_accepts_uniform (v : list Section) (c r : option Z) x :
  validate_sections (Some v) c r = Ok x ->
  Forall sized v \/ Forall unsized v.
Proof.
  destruct v as [|s v]; [left; constructor|].
  unfold validate_sections.
  destruct (truthy_int r && truthy_int c); [discriminate|].
  destruct (truthy_int c && _); [discriminate|].
  destruct (truthy_int r && _); [discriminate|].
  cbv zeta.
  destruct (declared_sizes (s :: v)) as [|q qs] eqn:Hsz.
  - intros _. right. by apply omap_nil_iff in Hsz.
  - destruct (negb _) eqn:Hlen; [discriminate|]. intros _. left.
    apply negb_false_iff, Nat.eqb_eq in Hlen. rewrite <- Hsz in Hlen.
    by apply omap_length_full in Hlen.
Qed.

Lemma loose_accepts_uniform_keys (ds : list section_dict) :
  check_sizes ds = Ok tt ->
  Forall (fun d => has_size_key d = true) ds \/
  Forall (fun d => has_size_key d = false) ds.
Proof.
  unfold check_sizes.
  destruct (existsb has_size_key ds) eqn:Hany.
  - destruct (forallb has_size_key ds) eqn:Hall; [|discriminate].
    intros _. left. apply Forall_forall. intros d Hd.
    rewrite forallb_forall in Hall. apply Hall. by apply list_elem_of_In.
  - intros _. right. apply Forall_forall. intros d Hd.
    destruct (has_size_key d) eqn:Hk; [|done].
    assert (existsb has_size_key ds = true) as Hex; [|congruence].
    apply existsb_exists. exists d. split; [by apply list_elem_of_In | done].
Qed.

(** ** Section counts against the dimension count *)

Lemma loose_count_exact (columns rows : option Z) (secs : list section_arg) :
  validate_layout columns rows secs = Ok tt ->
  (forall n, columns = Some n -> n <> 0%Z -> len secs = n) /\
  (forall n, rows = Some n -> n <> 0%Z -> len secs = n).
Proof.
  unfold validate_layout.
  destruct (truthy_int columns && truthy_int rows); [discriminate|].
  destruct (truthy_int columns && _) eqn:Hc; [discriminate|].
  destruct (truthy_int rows && _) eqn:Hr; [discriminate|].
  intros _. split; intros n -> Hn; simpl in *.
  - destruct (Z.eqb_spec n 0); [done|]. simpl in Hc.
    apply negb_false_iff in Hc. by apply Z.eqb_eq.
  - destruct (Z.eqb_spec n 0); [done|]. simpl in Hr.
    apply negb_false_iff in Hr. by apply Z.eqb_eq.
Qed.

Lemma typed_count_exact title lay cols rws (secs : list Section) name m :
  secs <> [] ->
  SlideModel_new title lay cols rws (Some secs) name = Ok m ->
  (forall n, cols = Some n -> len secs = n) /\
  (forall n, rws = Some n -> len secs = n).
Proof.
  intros Hne. unfold SlideModel_new.
  destruct (validate_dimension cols) as [c|] eqn:Hvc; [|by cbn].
  destruct (validate_dimension rws) as [r|] eqn:Hvr; [|by cbn]. cbn [rbind].
  destruct (validate_sections (Some secs) c r) as [v|] eqn:Hv; [|by cbn].
  intros _. destruct secs as [|s secs]; [done|].
  unfold validate_sections in Hv.
  destruct (truthy_int r && truthy_int c); [discriminate|].
  destruct (truthy_int c && _) eqn:Hc; [discriminate|].
  destruct (truthy_int r && _) eqn:Hr; [discriminate|].
  clear Hv. unfold validate_dimension in *.
  split; intros n ->.
  - destruct (Z.leb_spec n 0); [discriminate|]. injection Hvc as <-.
    simpl in Hc. destruct (Z.eqb_spec n 0); [lia|]. simpl in Hc.
    apply negb_false_iff in Hc. by apply Z.eqb_eq.
  - destruct (Z.leb_spec n 0); [discriminate|]. injection Hvr as <-.
    simpl in Hr. destruct (Z.eqb_spec n 0); [lia|]. simpl in Hr.
    apply negb_false_iff in Hr. by apply Z.eqb_eq.
Qed.

(** C5, at the input where the two validators part: a typed slide that
    asks for two columns and lists no section.  [validate_sections]
    returns at [if not v] before it compares any count, so the model is
    built; [add_slide] compares [len(sections)] with [columns] and raises.
    With at least one section both paths reject every mismatch
    ([typed_count_exact], [loose_count_exact]). *)
Theorem C5_typed_model_skips_count_check_without_sections :
  is_ok (SlideModel_new "T" (Some COLUMN) (Some 2%Z) None (Some []) None) = true
  /\ validate_layout (Some 2%Z) None [] = Raise (ColumnCountMismatch 2)
  /\ is_ok (SlideModel_new "T" (Some COLUMN) (Some 2%Z) None
              (Some [mkSection "A" [] None]) None) = false.
Proof. repeat split. Qed.

(** ** Mixed sizing *)

Lemma typed_rejects_mixed title lay cols rws (secs : list Section) name m :
  SlideModel_new title lay cols rws (Some secs) name = Ok m ->
  Forall sized secs \/ Forall unsized secs.
Proof.
  unfold SlideModel_new.
  destruct (validate_dimension cols) as [c|]; [|by cbn].
  destruct (validate_dimension rws) as [r|]; [|by cbn]. cbn [rbind].
  destruct (validate_sections (Some secs) c r) as [v|] eqn:Hv; [|by cbn].
  intros _. eapply typed_accepts_uniform, Hv.
Qed.

Lemma loose_rejects_mixed_keys (columns rows : option Z) (secs : list section_arg) :
  validate_layout columns rows secs = Ok tt ->
  Forall (fun a => has_size_key (process a) = true) secs \/
  Forall (fun a => has_size_key (process a) = false) secs.
Proof.
  unfold validate_layout.
  destruct (truthy_int columns && truthy_int rows); [discriminate|].
  destruct (truthy_int columns && _); [discriminate|].
  destruct (truthy_int rows && _); [discriminate|].
  intros H. apply loose_accepts_uniform_keys in H.
  change (map process secs) with (process <$> secs) in H.
  rewrite !Forall_fmap in H. exact H.
Qed.

(** C3, at the input where the slide-build path lets a mix through: two
    sections, the first with size 100, the second with ['size': None]
    (what [model_dump] writes for an unsized [Section]).  The typed
    constructor rejects the pair; [add_slide] tests only that the key is
    there, sums the sizes that are not [None], and goes on to build the
    slide.  The second column then starts where the usable width ends. *)
Theorem C3_slide_build_accepts_sized_next_to_none :
  let A := mkSection "A" [] (Some 100%Q) in
  let B := mkSection "B" [] None in
  let w := mkWorld {[ output_path (pptx "deck") := [title_slide "Deck"] ]} [] in
  sized A /\ unsized B
  /\ SlideModel_new "T" (Some COLUMN) (Some 2%Z) None (Some [A; B]) None
     = Raise MixedSizes
  /\ validate_layout (Some 2%Z) None [ArgModel A; ArgModel B] = Ok tt
  /\ validate_layout (Some 2%Z) None [ArgDict (model_dump A); ArgDict (model_dump B)]
     = Ok tt
  /\ fst (add_slide "deck" "T" (Some 2%Z) None
            [ArgDict (model_dump A); ArgDict (model_dump B)] w) = Ok tt
  /\ (default 0%Q (r_x <$> create_column_layout [model_dump A; model_dump B] !! 1%nat)
      == MARGIN_X + FULL_WIDTH)%Q.
Proof.
  intros A B w. split; [by eexists|].
  repeat split; reflexivity.
Qed.

(** ** The tolerance band *)


(** Every list of numbers has a total. *)
Lemma float_sum_total (xs : list float) : float_sum xs (Binary64.py_sum xs).
Proof.
  induction xs as [|x xs IH] using rev_ind; [constructor|].
  unfold Binary64.py_sum in *. rewrite fold_left_app. simpl.
  by constructor.
Qed.









(** The edges of the band, on both paths: totals of 97 and 103 are
    refused, totals of 98 and 102 pass. *)
Example band_edges :
  let typed (a b : float) :=
    is_ok (Binary64.SlideModel_new "T" None None None
             (Some [Binary64.mkSection "A" [] (Some a);
                    Binary64.mkSection "B" [] (Some b)]) None) in
  let loose (a b : float) :=
    is_ok (Binary64.validate_layout None None
             [Binary64.ArgDict (Binary64.mkDict "A" [] (Binary64.SizeNum a));
              Binary64.ArgDict (Binary64.mkDict "B" [] (Binary64.SizeNum b))]) in
  (typed 50 47 = false /\ typed 50 48 = true /\ typed 50 52 = true /\ typed 50 53 = false)%float
  /\ (loose 50 47 = false /\ loose 50 48 = true /\ loose 50 52 = true /\ loose 50 53 = false)%float.
Proof. repeat split. Qed.

(** ** From the typed model to the slide-build checks *)

Lemma dumped_sizes (secs : list Section) :
  omap size_value (model_dump <$> secs) = declared_sizes secs.
Proof.
  unfold declared_sizes. induction secs as [|s secs IH]; [done|].
  rewrite fmap_cons. csimpl. rewrite IH.
  unfold size_value, model_dump. simpl. by destruct (size s).
Qed.

Lemma dumped_keys (secs : list Section) :
  forallb has_size_key (model_dump <$> secs) = true.
Proof.
  induction secs as [|s secs IH]; [done|].
  rewrite fmap_cons. simpl. rewrite IH.
  unfold has_size_key, model_dump. simpl. by destruct (size s).
Qed.

(** A slide with sections that the typed constructor accepts also passes
    the checks of [add_slide] when its [Section] objects are handed over. *)
Lemma typed_accepted_passes_slide_build title lay cols rws (secs : list Section) name m :
  secs <> [] ->
  SlideModel_new title lay cols rws (Some secs) name = Ok m ->
  validate_layout cols rws (ArgModel <$> secs) = Ok tt.
Proof.
  intros Hne. unfold SlideModel_new.
  destruct (validate_dimension cols) as [c|] eqn:Hvc; [|by cbn].
  destruct (validate_dimension rws) as [r|] eqn:Hvr; [|by cbn]. cbn [rbind].
  assert (c = cols) as ->.
  { unfold validate_dimension in Hvc. destruct cols as [z|]; [|congruence].
    destruct (z <=? 0)%Z; congruence. }
  assert (r = rws) as ->.
  { unfold validate_dimension in Hvr. destruct rws as [z|]; [|congruence].
    destruct (z <=? 0)%Z; congruence. }
  destruct (validate_sections (Some secs) cols rws) as [v|] eqn:Hv; [|by cbn].
  intros _. destruct secs as [|s secs]; [done|].
  unfold validate_sections in Hv. unfold validate_layout. rewrite len_fmap.
  rewrite (andb_comm (truthy_int cols) (truthy_int rws)).
  destruct (truthy_int rws && truthy_int cols); [discriminate|].
  destruct (truthy_int cols && _); [discriminate|].
  destruct (truthy_int rws && _); [discriminate|].
  cbv zeta in Hv. unfold check_sizes.
  change (map process (ArgModel <$> s :: secs)) with (process <$> (ArgModel <$> s :: secs)).
  rewrite <- list_fmap_compose.
  change (process ∘ ArgModel) with model_dump.
  rewrite dumped_keys, dumped_sizes.
  assert (existsb has_size_key (model_dump <$> s :: secs) = true) as ->.
  { rewrite fmap_cons. simpl. unfold has_size_key at 1, model_dump. simpl.
    by destruct (size s). }
  simpl negb. cbv iota zeta.
  destruct (declared_sizes (s :: secs)) as [|q qs]; [done|].
  destruct (negb _); [discriminate|].
  by destruct (Qltb _ 98 || Qgtb _ 102).
Qed.

(** ** Geometry of the two layouts *)

Section CanvasFacts.

Variables margin_x margin_y gap full_width full_height : Q.

Local Open Scope Q_scope.

Lemma py_sum_snoc (l : list Q) (x : Q) : py_sum (l ++ [x]) = py_sum l + x.
Proof. unfold py_sum. by rewrite fold_left_app. Qed.

Lemma previous_sections_size_0 (secs : list section_dict) :
  previous_sections_size secs 0 = 0.
Proof. reflexivity. Qed.

Lemma previous_sections_size_S (secs : list section_dict) (i : nat) d :
  secs !! i = Some d ->
  previous_sections_size secs (S i)
  = previous_sections_size secs i + size_factor (length secs) d.
Proof.
  intros Hd. unfold previous_sections_size.
  rewrite (take_S_r _ _ _ Hd), map_app. cbn [map].
  by rewrite py_sum_snoc.
Qed.



Lemma inject_nat_S (i : nat) :
  inject_Z (Z.of_nat (S i)) == inject_Z (Z.of_nat i) + 1.
Proof. rewrite Nat2Z.inj_succ. unfold Z.succ. by rewrite inject_Z_plus. Qed.





Hypothesis gap_pos : 0 < gap.


Hypothesis extent_pos : 0 < full_width + gap.


End CanvasFacts.

(** ** The layouts on the slide canvas *)


Lemma usable_extent_nonneg (full : Q) (bound : nat) (n : nat) :
  (n <= bound)%nat ->
  (0 <= full - SECTION_MARGIN * inject_Z (Z.of_nat bound - 1))%Q ->
  (0 <= full - SECTION_MARGIN * inject_Z (Z.of_nat n - 1))%Q.
Proof.
  intros Hn Hb.
  assert (inject_Z (Z.of_nat n - 1) <= inject_Z (Z.of_nat bound - 1))%Q as Hle
    by (rewrite <- Zle_Qle; lia).
  unfold SECTION_MARGIN in *. lra.
Qed.



(** Sections that went through the typed model have no negative size. *)
Lemma typed_sections_no_negative (secs : list Section) :
  Forall (fun s => is_ok (validate_size (size s)) = true) secs ->
  Forall no_negative_size (model_dump <$> secs).
Proof.
  intros H. apply Forall_fmap. eapply Forall_impl; [exact H|].
  intros s Hs q. unfold truthy_size, model_dump, validate_size in *. simpl.
  destruct (size s) as [q'|]; [|discriminate].
  destruct (Qeq_bool q' 0); [discriminate|]. intros [= <-].
  destruct (Qle_bool q' 0) eqn:Hle; [discriminate|].
  apply Qlt_le_weak, Qnot_le_lt. intros Hq. apply Qle_bool_iff in Hq. congruence.
Qed.


(** ** A slide with one section *)

Lemma lone_section_checked (columns rows : option Z) (d : section_dict) :
  validate_layout columns rows [ArgDict d] = Ok tt ->
  match size_value d with
  | Some q => (98 <= q <= 102)%Q
  | None => True
  end.
Proof.
  unfold validate_layout.
  destruct (truthy_int columns && truthy_int rows); [discriminate|].
  destruct (truthy_int columns && _); [discriminate|].
  destruct (truthy_int rows && _); [discriminate|].
  unfold check_sizes, has_size_key, size_value. simpl.
  destruct (d_size d) as [| |q]; simpl; try done.
  unfold py_sum. simpl.
  destruct (Qltb (0 + q) 98 || Qgtb (0 + q) 102) eqn:Hband; [discriminate|].
  intros _. apply out_of_band_false in Hband. lra.
Qed.

(** C1 (as amended): a slide with one validated section gets exactly one
    region, placed at the margins.  Across the tiling axis it has the full
    extent; along it the computed extent is the full usable one times the
    declared share: [size/100], which validation keeps between 98% and
    102%, and the whole of it when no size is declared.  [column_regions]
    are the values computed for the columns, before [int] is applied. *)
Theorem C1_single_section_region (columns rows : option Z) (d : section_dict) :
  validate_layout columns rows [ArgDict d] = Ok tt ->
  Forall2 same_region (create_row_layout [d])
    [mkRegion MARGIN_X MARGIN_Y FULL_WIDTH (FULL_HEIGHT * share d)]
  /\ Forall2 same_region (column_regions [d])
       [mkRegion MARGIN_X MARGIN_Y (FULL_WIDTH * share d) FULL_HEIGHT]
  /\ (0.98 <= share d <= 1.02)%Q
  /\ (dict_unsized d -> share d = 1%Q).
Proof.
  intros Hv. apply lone_section_checked in Hv.
  assert (size_factor 1 d == share d)%Q as Hf.
  { unfold size_factor, share, truthy_size, size_value in *.
    destruct (d_size d) as [| |q]; try reflexivity.
    destruct (Qeq_bool q 0) eqn:Hz; [|reflexivity].
    apply Qeq_bool_iff in Hz. cbv beta iota in Hv. lra. }
  assert (0.98 <= share d <= 1.02)%Q as Hshare.
  { unfold share. destruct (size_value d) as [q|]; [|lra].
    split; [apply Qle_shift_div_l | apply Qle_shift_div_r]; lra. }
  repeat split; try (apply Hshare).
  - constructor; [|constructor].
    unfold same_region, create_row_layout, row_layout_on, row_cell.
    cbn [imap r_x r_y r_width r_height length].
    change (previous_sections_size [d] 0) with 0%Q.
    change (inject_Z (len [d] - 1)) with 0%Q. change (inject_Z (Z.of_nat 0)) with 0%Q.
    rewrite Hf. unfold MARGIN_Y, SECTION_MARGIN, FULL_HEIGHT.
    repeat split; try reflexivity; ring.
  - constructor; [|constructor].
    unfold same_region, column_regions, column_geometry, column_cell.
    cbn [imap r_x r_y r_width r_height length].
    change (previous_sections_size [d] 0) with 0%Q.
    change (inject_Z (len [d] - 1)) with 0%Q. change (inject_Z (Z.of_nat 0)) with 0%Q.
    rewrite Hf. unfold MARGIN_X, SECTION_MARGIN, FULL_WIDTH.
    repeat split; try reflexivity; ring.
  - unfold dict_unsized, share. by intros ->.
Qed.

Lemma C1_single_section_region_witness :
  let d := mkDict "Only" ["one"; "two"] (SizeNum 98) in
  Forall2 same_region (create_row_layout [d])
    [mkRegion MARGIN_X MARGIN_Y FULL_WIDTH (FULL_HEIGHT * share d)]
  /\ Forall2 same_region (column_regions [d])
       [mkRegion MARGIN_X MARGIN_Y (FULL_WIDTH * share d) FULL_HEIGHT]
  /\ (0.98 <= share d <= 1.02)%Q
  /\ (dict_unsized d -> share d = 1%Q).
Proof.
  intros d. apply (C1_single_section_region None (Some 1%Z) d). reflexivity.
Defined.

(** C1, as stated, fails for a lone section of size 98, which both
    validators accept: its row is 4.9 inches high, not the full 5.0, and
    the width computed for its column is 12.0834, not the full 12.33. *)
Lemma C1_counterexample :
  let s := mkSection "Only" [] (Some 98%Q) in
  let d := model_dump s in
  is_ok (SlideModel_new "T" (Some ROW) None (Some 1%Z) (Some [s]) None) = true
  /\ validate_layout None (Some 1%Z) [ArgDict d] = Ok tt
  /\ validate_layout (Some 1%Z) None [ArgDict d] = Ok tt
  /\ Forall2 same_region (create_row_layout [d]) [mkRegion 0.5 1.5 12.33 4.9]
  /\ Forall2 same_region (column_regions [d]) [mkRegion 0.5 1.5 12.0834 5.0]
  /\ ~ (4.9 == FULL_HEIGHT)%Q
  /\ ~ (12.0834 == FULL_WIDTH)%Q.
Proof.
  intros s d. repeat split; try reflexivity.
  - constructor; [|constructor]. repeat split; reflexivity.
  - constructor; [|constructor]. repeat split; reflexivity.
  - by vm_compute.
  - by vm_compute.
Qed.

(** ** Three equal columns *)

(** C2, for any three sections without sizes: the x-origins are 0.5,
    4.677 and 8.854 to the third decimal, and the width computed for each
    column is 3.977 to the third decimal, but the box is requested with
    [int(width)], so each column is drawn 3 inches wide. *)
Theorem C2_three_columns_drawn_three_inches_wide
    (h1 h2 h3 : string) (c1 c2 c3 : list string) :
  let secs := [mkDict h1 c1 SizeMissing; mkDict h2 c2 SizeMissing;
               mkDict h3 c3 SizeMissing] in
  Forall2 (close_to 0.001) (r_x <$> create_column_layout secs) [0.5; 4.677; 8.854]%Q
  /\ Forall2 (close_to 0.001) (r_width <$> column_regions secs) [3.977; 3.977; 3.977]%Q
  /\ Forall2 Qeq (r_width <$> create_column_layout secs) [3; 3; 3]%Q
  /\ ~ close_to 0.001 3 3.977.
Proof.
  intros secs. repeat split; try (repeat constructor; reflexivity).
  intros [H _]. vm_compute in H. discriminate.
Qed.

(** ** Rows against columns *)

(** C6, at two sections without sizes.  Before [int] the two algorithms
    are transposes of each other ([row_is_transposed_column]); but the
    column layout draws [int(width)] by [int(height)], the row layout the
    values as computed.  On the transposed canvas the columns come out
    2 by 12 (area 24) where the rows are 2.4 by 12.33 (area 29.592). *)
Theorem C6_truncation_breaks_transpose :
  let secs := [mkDict "Top" [] SizeMissing; mkDict "Bottom" [] SizeMissing] in
  let rows := create_row_layout secs in
  let cols := transpose <$> column_layout_on MARGIN_Y MARGIN_X SECTION_MARGIN
                              FULL_HEIGHT FULL_WIDTH secs in
  Forall2 Qeq (area <$> rows) [29.592; 29.592]%Q
  /\ Forall2 Qeq (area <$> cols) [24; 24]%Q
  /\ r_y <$> rows = r_y <$> cols
  /\ Forall2 same_region rows
       (transpose <$> column_geometry MARGIN_Y MARGIN_X SECTION_MARGIN
                        FULL_HEIGHT FULL_WIDTH secs).
Proof.
  intros secs rows cols. repeat split; try (repeat constructor; reflexivity).
Qed.

(** ** Slide assembly and the files on disk *)

Lemma pptx_path_not_template (name : string) : output_path (pptx name) <> TEMPLATE.
Proof. discriminate. Qed.

Lemma build_slide_title t columns rows secs slide :
  build_slide t columns rows secs = Ok slide -> title_text slide = t.
Proof.
  unfold build_slide.
  destruct (truthy_int columns); [|destruct (truthy_int rows)].
  - destruct (run_layout _ _); [|discriminate]. by intros [= <-].
  - destruct (run_layout _ _); [|discriminate]. by intros [= <-].
  - by intros [= <-].
Qed.

Lemma build_slide_not_validation t columns rows secs e :
  build_slide t columns rows secs = Raise e -> is_validation_error e = false.
Proof.
  unfold build_slide, run_layout.
  destruct (truthy_int columns); [|destruct (truthy_int rows)];
    try destruct (mapM as_dict secs); simpl; try discriminate; by intros [= <-].
Qed.

Lemma validate_layout_error columns rows secs e :
  validate_layout columns rows secs = Raise e -> is_validation_error e = true.
Proof.
  unfold validate_layout, check_sizes.
  repeat (match goal with
          | |- context [if ?b then _ else _] => destruct b
          | |- context [match ?l with [] => _ | _ :: _ => _ end] => destruct l
          end; try discriminate; try (by intros [= <-])).
Qed.

(** What one [add_slide] call does to the world, in all its outcomes. *)
Lemma add_slide_outcome name t columns rows secs (w : world) :
  let path := output_path (pptx name) in
  match add_slide name t columns rows secs w with
  | (Ok _, w') =>
      exists prs slide,
        files w !! path = Some prs /\ title_text slide = t /\
        files w' = <[path := prs ++ [slide]]> (files w) /\
        trace w' = trace w ++ [Probe path; Open path; Save path]
  | (Raise e, w') =>
      files w' = files w /\
      if is_validation_error e
      then trace w' = trace w \/ trace w' = trace w ++ [Probe path]
      else trace w' = trace w ++ [Probe path; Open path]
  end.
Proof.
  intros path. unfold add_slide.
  destruct (truthy_str name); simpl; [|by auto].
  destruct (truthy_str t); simpl; [|by auto].
  fold path.
  unfold mbind, io_bind, bind, path_exists, raise, lift, open_presentation, save.
  destruct (files w !! path) as [prs|] eqn:Hfile; simpl.
  2: { by auto. }
  destruct (validate_layout columns rows secs) as [[]|e] eqn:Hv.
  2: { apply validate_layout_error in Hv. rewrite Hv. simpl. by auto. }
  rewrite Hfile.
  destruct (build_slide t columns rows secs) as [slide|e] eqn:Hb; simpl.
  - destruct (bool_decide _); simpl.
    + split; [done|]. by rewrite <- !app_assoc.
    + exists prs, slide. repeat split; try done.
      * by eapply build_slide_title.
      * by rewrite <- !app_assoc.
  - apply build_slide_not_validation in Hb. rewrite Hb. split; [done|].
    by rewrite <- !app_assoc.
Qed.

(** C9: when [add_slide] raises one of its validation errors, the files
    on disk are what they were, and the only file operation performed, if
    any, is the probe for existence: the document was neither opened nor
    saved. *)
Theorem C9_validation_failure_leaves_document_untouched
    name t columns rows secs (w w' : world) (e : error) :
  add_slide name t columns rows secs w = (Raise e, w') ->
  is_validation_error e = true ->
  files w' = files w
  /\ exists events, trace w' = trace w ++ events
                    /\ Forall (fun ev => touches_document ev = false) events.
Proof.
  intros Hrun He. pose proof (add_slide_outcome name t columns rows secs w) as H.
  rewrite Hrun in H. simpl in H. destruct H as [Hfiles Htrace].
  split; [exact Hfiles|]. rewrite He in Htrace.
  destruct Htrace as [-> | ->].
  - exists []. split; [by rewrite app_nil_r | constructor].
  - eexists. split; [reflexivity | by repeat constructor].
Qed.

Lemma C9_validation_failure_leaves_document_untouched_witness :
  let w := mkWorld {[ output_path (pptx "deck") := [title_slide "Deck"] ]} [] in
  let secs := [ArgDict (mkDict "A" [] (SizeNum 60)); ArgDict (mkDict "B" [] (SizeNum 60))] in
  let w' := snd (add_slide "deck" "Two columns" (Some 2%Z) None secs w) in
  files w' = files w
  /\ exists events, trace w' = trace w ++ events
                    /\ Forall (fun ev => touches_document ev = false) events.
Proof.
  intros w secs w'.
  apply (C9_validation_failure_leaves_document_untouched
           "deck" "Two columns" (Some 2%Z) None secs w w' TotalSizeOutOfBand);
    reflexivity.
Defined.

(** Every error of [add_slide], validation or not, leaves the files alone. *)
Lemma add_slide_raise_keeps_files name t columns rows secs (w w' : world) e :
  add_slide name t columns rows secs w = (Raise e, w') -> files w' = files w.
Proof.
  intros Hrun. pose proof (add_slide_outcome name t columns rows secs w) as H.
  rewrite Hrun in H. apply H.
Qed.

(** ** Presentation creation *)

Lemma add_slide_data_outcome name sd (w : world) :
  let path := output_path (pptx name) in
  match add_slide_data name sd w with
  | (Ok _, w') =>
      exists prs slide,
        files w !! path = Some prs /\ title_text slide = sd_slide_title sd /\
        files w' = <[path := prs ++ [slide]]> (files w) /\
        exists events, trace w' = trace w ++ events
  | (Raise e, w') =>
      files w' = files w /\ exists events, trace w' = trace w ++ events
  end.
Proof.
  intros path. unfold add_slide_data.
  assert (forall columns rows secs,
    match add_slide name (sd_slide_title sd) columns rows secs w with
    | (Ok _, w') =>
        exists prs slide,
          files w !! path = Some prs /\ title_text slide = sd_slide_title sd /\
          files w' = <[path := prs ++ [slide]]> (files w) /\
          exists events, trace w' = trace w ++ events
    | (Raise e, w') =>
        files w' = files w /\ exists events, trace w' = trace w ++ events
    end) as Hcall.
  { intros columns rows secs.
    pose proof (add_slide_outcome name (sd_slide_title sd) columns rows secs w) as H.
    destruct (add_slide _ _ _ _ _ w) as [[[]|e] w']; simpl in H.
    - destruct H as (prs & slide & ? & ? & ? & ?). exists prs, slide. eauto.
    - destruct H as [Hf Ht]. split; [done|].
      destruct (is_validation_error e); [destruct Ht as [Ht|Ht]|]; rewrite Ht.
      + exists []. by rewrite app_nil_r.
      + eauto.
      + eauto. }
  destruct (_ && truthy_int (sd_columns sd)); [apply Hcall|].
  destruct (_ && truthy_int (sd_rows sd)); [apply Hcall|].
  destruct (sd_sections sd); apply Hcall.
Qed.

(** The loop over the initial slides: the document grows by one slide per
    successful call, and stops growing at the first call that raises. *)
Lemma for_each_slides_outcome name (slides : list slide_data) :
  forall (w : world) prs,
    files w !! output_path (pptx name) = Some prs ->
    match for_each (add_slide_data name) slides w with
    | (r, w') =>
        exists built,
          files w' = <[output_path (pptx name) := prs ++ built]> (files w)
          /\ title_text <$> built = sd_slide_title <$> take (length built) slides
          /\ (if is_ok r then length built = length slides
              else (length built < length slides)%nat)
          /\ exists events, trace w' = trace w ++ events
    end.
Proof.
  induction slides as [|sd slides IH]; intros w prs Hfile.
  - simpl. exists []. rewrite app_nil_r, insert_id by done.
    repeat split; try done. exists []. by rewrite app_nil_r.
  - cbn [for_each]. unfold mbind, io_bind, bind.
    pose proof (add_slide_data_outcome name sd w) as Hone.
    destruct (add_slide_data name sd w) as [[[]|e] w1]; simpl in Hone.
    + destruct Hone as (prs0 & slide & Hprs0 & Htitle & Hfiles1 & ev1 & Htr1).
      rewrite Hfile in Hprs0. injection Hprs0 as <-.
      assert (files w1 !! output_path (pptx name) = Some (prs ++ [slide])) as Hfile1
        by (rewrite Hfiles1; apply lookup_insert_eq).
      specialize (IH w1 _ Hfile1).
      fold (@mbind io _) in IH.
      destruct (for_each (add_slide_data name) slides w1) as [r w'].
      destruct IH as (built & Hfiles' & Htitles & Hlen & ev2 & Htr2).
      exists (slide :: built). repeat split.
      * rewrite Hfiles', Hfiles1, insert_insert_eq. by rewrite <- app_assoc.
      * cbn [length firstn]. by rewrite !fmap_cons, Htitle, Htitles.
      * destruct (is_ok r); simpl; lia.
      * exists (ev1 ++ ev2). by rewrite Htr2, Htr1, app_assoc.
    + destruct Hone as (Hfiles1 & ev1 & Htr1).
      exists []. rewrite app_nil_r, Hfiles1, insert_id by done.
      repeat split; simpl; try done; [lia | eauto].
Qed.

(** One [add_slide] call on a document that is there and can be written:
    the outcome is that of [new_slide], and a slide is appended exactly
    when there is one. *)
Lemma add_slide_found name t columns rows secs (w : world) (prs : Presentation) :
  let path := output_path (pptx name) in
  truthy_str name = true ->
  files w !! path = Some prs ->
  path ∉ unwritable w ->
  match new_slide t columns rows secs with
  | Ok slide =>
      add_slide name t columns rows secs w
      = (Ok tt, World (<[path := prs ++ [slide]]> (files w))
                      (trace w ++ slide_added path) (unwritable w))
  | Raise e =>
      exists tail,
        add_slide name t columns rows secs w
        = (Raise e, World (files w) (trace w ++ tail) (unwritable w))
        /\ tail `prefix_of` [Probe path; Open path]
  end.
Proof.
  intros path Hname Hfile Hw. unfold add_slide, new_slide. rewrite Hname.
  destruct (truthy_str t); simpl.
  2: { exists []. rewrite app_nil_r. split; [by destruct w | by eexists]. }
  fold path.
  unfold mbind, io_bind, bind, path_exists, raise, lift, open_presentation, save.
  unfold Presentation in *. rewrite Hfile. simpl.
  destruct (validate_layout columns rows secs) as [[]|e]; simpl.
  2: { exists [Probe path]. split; [done | by eexists]. }
  unfold Presentation in *. rewrite Hfile.
  destruct (build_slide t columns rows secs) as [slide|e]; simpl.
  - rewrite bool_decide_eq_false_2 by done. unfold log, slide_added. simpl.
    by rewrite <- !app_assoc.
  - exists [Probe path; Open path]. split; [|done].
    unfold log. simpl. by rewrite <- !app_assoc.
Qed.

Lemma add_slide_data_found name sd (w : world) (prs : Presentation) :
  let path := output_path (pptx name) in
  truthy_str name = true ->
  files w !! path = Some prs ->
  path ∉ unwritable w ->
  match slide_of sd with
  | Ok slide =>
      add_slide_data name sd w
      = (Ok tt, World (<[path := prs ++ [slide]]> (files w))
                      (trace w ++ slide_added path) (unwritable w))
  | Raise e =>
      exists tail,
        add_slide_data name sd w
        = (Raise e, World (files w) (trace w ++ tail) (unwritable w))
        /\ tail `prefix_of` [Probe path; Open path]
  end.
Proof.
  intros path Hname Hfile Hw. unfold add_slide_data, slide_of.
  destruct (_ && truthy_int (sd_columns sd)); [by apply add_slide_found|].
  destruct (_ && truthy_int (sd_rows sd)); [by apply add_slide_found|].
  destruct (sd_sections sd); by apply add_slide_found.
Qed.

(** The loop over the initial slides on a document that is there and can
    be written: every slide before the first one that fails is appended,
    in order, and nothing after it. *)
Lemma for_each_slides_found name (slides : list slide_data) :
  let path := output_path (pptx name) in
  forall (w : world) (prs : Presentation),
    truthy_str name = true ->
    files w !! path = Some prs ->
    path ∉ unwritable w ->
    match for_each (add_slide_data name) slides w with
    | (Ok _, w') =>
        exists built,
          Forall2 (fun sd slide => slide_of sd = Ok slide) slides built
          /\ files w' = <[path := prs ++ built]> (files w)
          /\ trace w' = trace w ++ mjoin (replicate (length slides) (slide_added path))
    | (Raise e, w') =>
        exists (k : nat) (failing : slide_data) (built : list Slide) tail,
          slides !! k = Some failing
          /\ slide_of failing = Raise e
          /\ Forall2 (fun sd slide => slide_of sd = Ok slide) (take k slides) built
          /\ files w' = <[path := prs ++ built]> (files w)
          /\ trace w' = trace w ++ mjoin (replicate k (slide_added path)) ++ tail
          /\ tail `prefix_of` [Probe path; Open path]
    end.
Proof.
  intros path. induction slides as [|sd slides IH]; intros w prs Hname Hfile Hw.
  - simpl. exists []. rewrite !app_nil_r, insert_id by done. by repeat split.
  - cbn [for_each]. unfold mbind, io_bind, bind.
    pose proof (add_slide_data_found name sd w prs Hname Hfile Hw) as Hone.
    fold path in Hone.
    destruct (slide_of sd) as [slide|e] eqn:Hsd.
    + rewrite Hone.
      set (w1 := World _ _ _).
      assert (files w1 !! path = Some (prs ++ [slide])) as Hfile1
        by apply lookup_insert_eq.
      specialize (IH w1 _ Hname Hfile1 Hw).
      destruct (for_each (add_slide_data name) slides w1) as [[[]|e] w'].
      * destruct IH as (built & Hall & Hfiles & Htr).
        exists (slide :: built). split; [by constructor|].
        split.
        -- rewrite Hfiles. subst w1. cbn [files].
           by rewrite insert_insert_eq, <- app_assoc.
        -- rewrite Htr. subst w1. cbn [trace length replicate mjoin list_join].
           by rewrite <- !app_assoc.
      * destruct IH as (k & failing & built & tail & Hk & Hfail & Hall & Hfiles & Htr & Htail).
        exists (S k), failing, (slide :: built), tail.
        split; [done|]. split; [done|]. split; [by constructor|].
        split; [|split; [|done]].
        -- rewrite Hfiles. subst w1. cbn [files].
           by rewrite insert_insert_eq, <- app_assoc.
        -- rewrite Htr. subst w1. cbn [trace replicate mjoin list_join].
           by rewrite <- !app_assoc.
    + destruct Hone as (tail & -> & Htail).
      exists 0%nat, sd, [], tail.
      split; [done|]. split; [done|]. split; [constructor|].
      split; [|done]. cbn [files]. by rewrite app_nil_r, insert_id.
Qed.

(** A [create_ppt] call that cannot write its file raises before it has
    changed anything. *)
Lemma create_ppt_unwritable (name title : string) (slides : list slide_data)
    (w : world) (template : Presentation) :
  truthy_str name = true ->
  files w !! TEMPLATE = Some template ->
  output_path (pptx name) ∈ unwritable w ->
  exists w', create_ppt name title slides w = (Raise SaveFailed, w')
             /\ files w' = files w
             /\ trace w' = trace w ++ [Open TEMPLATE].
Proof.
  intros Hname Htpl Hw. unfold create_ppt. rewrite Hname.
  unfold mbind, io_bind, bind, open_presentation, save, negb.
  cbv beta iota. unfold Presentation in *. rewrite Htpl.
  cbn [unwritable log]. rewrite bool_decide_eq_true_2 by done.
  by eexists.
Qed.

(** C10: [create_ppt] saves the document with its title slide as soon as
    the template is loaded, before the loop over the initial slides.  On
    a disk where that file can be written, a call that raises has failed
    on one of the initial slides, the first one for which [add_slide] has
    an error, and raises that error.  The file is then on disk and holds
    the template's slides, the title slide, and the slide of every
    initial slide before the failing one, in order, and no other; all
    other files are as they were.  The operations performed are the
    opening of the template, the first save, one full round per slide
    added, and what the failing round did before its save. *)
Theorem C10_create_ppt_leaves_partial_document
    (name title : string) (slides : list slide_data) (w w' : world)
    (template : Presentation) (e : error) :
  let path := output_path (pptx name) in
  truthy_str name = true ->
  files w !! TEMPLATE = Some template ->
  path ∉ unwritable w ->
  create_ppt name title slides w = (Raise e, w') ->
  exists (k : nat) (failing : slide_data) (built : list Slide) (tail : list io_event),
    slides !! k = Some failing
    /\ slide_of failing = Raise e
    /\ Forall2 (fun sd slide => slide_of sd = Ok slide) (take k slides) built
    /\ files w' = <[path := template ++ title_slide title :: built]> (files w)
    /\ trace w' = trace w ++ [Open TEMPLATE; Save path]
                          ++ mjoin (replicate k (slide_added path)) ++ tail
    /\ tail `prefix_of` [Probe path; Open path].
Proof.
  intros path Hname Htpl Hw. unfold create_ppt. rewrite Hname.
  unfold mbind, io_bind, bind, open_presentation, save, ret, negb.
  cbv beta iota. unfold Presentation in *. rewrite Htpl.
  cbn [unwritable log]. fold path. rewrite bool_decide_eq_false_2 by done.
  set (w1 := log (Save path) _).
  assert (files w1 !! path = Some (template ++ [title_slide title]))
    as Hfile1 by apply lookup_insert_eq.
  pose proof (for_each_slides_found name slides w1 _ Hname Hfile1 Hw) as Hloop.
  fold path in Hloop.
  destruct (for_each (add_slide_data name) slides w1) as [[[]|e1] w2]; [discriminate|].
  intros [= <- <-].
  destruct Hloop as (k & failing & built & tail & Hk & Hfail & Hall & Hfiles & Htr & Htail).
  exists k, failing, built, tail. repeat split; try done.
  - rewrite Hfiles. subst w1. cbn [files log].
    by rewrite insert_insert_eq, <- app_assoc.
  - rewrite Htr. subst w1. cbn [trace log]. by rewrite <- !app_assoc.
Qed.

Lemma C10_create_ppt_leaves_partial_document_witness :
  let w := mkWorld {[ TEMPLATE := [title_slide "Master"] ]} [] in
  let path := output_path (pptx "deck") in
  let good := mkSlideData "Agenda" None None None
                [ArgDict (mkDict "Today" ["Scope"] SizeMissing)] in
  let bad := mkSlideData "Split" (Some "columns") (Some 3%Z) None
               [ArgDict (mkDict "Left" [] SizeMissing)] in
  let slides := [good; good; bad; good] in
  let w' := snd (create_ppt "deck" "Kickoff" slides w) in
  exists (k : nat) (failing : slide_data) (built : list Slide) (tail : list io_event),
    slides !! k = Some failing
    /\ slide_of failing = Raise (ColumnCountMismatch 3)
    /\ Forall2 (fun sd slide => slide_of sd = Ok slide) (take k slides) built
    /\ files w' = <[path := [title_slide "Master"] ++ title_slide "Kickoff" :: built]> (files w)
    /\ trace w' = trace w ++ [Open TEMPLATE; Save path]
                          ++ mjoin (replicate k (slide_added path)) ++ tail
    /\ tail `prefix_of` [Probe path; Open path].
Proof.
  intros w path good bad slides w'.
  apply (C10_create_ppt_leaves_partial_document
           "deck" "Kickoff" slides w w' [title_slide "Master"] (ColumnCountMismatch 3)).
  - reflexivity.
  - reflexivity.
  - apply not_elem_of_empty.
  - reflexivity.
Defined.

(** ** Layout inference at the tool boundary *)

(** Without ['COLUMN'] or ['ROW'] the tool function never passes its
    sections on. *)
Lemma tool_add_slide_ignores_sections ppt_name t columns rows layout secs (w : world) :
  layout <> Some "COLUMN" -> layout <> Some "ROW" ->
  Agent.add_slide ppt_name t columns rows layout secs w
  = Agent.add_slide ppt_name t columns rows layout None w.
Proof.
  intros Hc Hr. unfold Agent.add_slide.
  by rewrite !bool_decide_eq_false_2.
Qed.

(** The tool function never reads its [columns] and [rows] arguments. *)
Lemma tool_add_slide_ignores_dimensions ppt_name t columns rows layout secs (w : world) :
  Agent.add_slide ppt_name t columns rows layout secs w
  = Agent.add_slide ppt_name t None None layout secs w.
Proof. reflexivity. Qed.

(** C8, at a call with one section and no layout (the call made in the
    repository's own full-flow test).  The tool function reports success
    and the new slide has no region: the section is dropped.  The loop of
    [create_ppt], given the same slide, infers [columns = len(sections)]
    and draws the column. *)
Theorem C8_tool_add_slide_drops_sections_without_layout :
  let path := output_path (pptx "test_pres") in
  let w := mkWorld {[ path := [title_slide "Test Presentation"] ]} [] in
  let secs := [ArgDict (mkDict "Overview" ["Point 1"] SizeMissing)] in
  let by_tool := Agent.add_slide "test_pres" "Introduction" None None None (Some secs) w in
  let by_create := add_slide_data "test_pres"
                     (mkSlideData "Introduction" None None None secs) w in
  fst by_tool = Agent.Message
  /\ (shapes <$> last_slide (snd by_tool) path) = Some []
  /\ fst by_create = Ok tt
  /\ (map box <$> (shapes <$> last_slide (snd by_create) path))
     = Some (create_column_layout [mkDict "Overview" ["Point 1"] SizeMissing]).
Proof. repeat split. Qed.

(** * Further properties of the code *)

(** ** Sums and truncation *)

Lemma fold_left_Qplus_acc (l : list Q) (a : Q) :
  (fold_left Qplus l a == a + fold_left Qplus l 0)%Q.
Proof.
  revert a. induction l as [|x l IH]; intros a; simpl.
  - ring.
  - rewrite (IH (a + x)%Q), (IH (0 + x)%Q). ring.
Qed.

Lemma py_sum_cons (x : Q) (l : list Q) : (py_sum (x :: l) == x + py_sum l)%Q.
Proof.
  unfold py_sum. simpl. rewrite fold_left_Qplus_acc.
  generalize (fold_left Qplus l 0%Q). intros s. ring.
Qed.

Lemma py_sum_constant {A} (c : Q) (l : list A) :
  (py_sum (map (fun _ => c) l) == inject_Z (Z.of_nat (length l)) * c)%Q.
Proof.
  induction l as [|x l IH].
  - simpl. unfold py_sum. simpl. ring.
  - cbn [map length]. rewrite py_sum_cons, IH, inject_nat_S. ring.
Qed.

(** [int] of a number that is not negative is its floor. *)
Lemma py_int_floor (x : Q) :
  (0 <= x)%Q -> (inject_Z (py_int x) <= x /\ x < inject_Z (py_int x) + 1)%Q.
Proof.
  destruct x as [n d]. unfold py_int, Qle, Qlt, Qplus, inject_Z. simpl.
  intros Hn. rewrite Z.mul_1_r in Hn.
  rewrite Z.quot_div_nonneg by lia.
  pose proof (Z.mul_div_le n (Z.pos d) ltac:(lia)).
  pose proof (Z.mul_succ_div_gt n (Z.pos d) ltac:(lia)).
  nia.
Qed.

Lemma py_int_nonpos (x : Q) : (x <= 0)%Q -> (py_int x <= 0)%Z.
Proof.
  destruct x as [n d]. unfold py_int, Qle. simpl. intros Hn.
  rewrite Z.mul_1_r in Hn.
  rewrite <- (Z.opp_involutive n), Z.quot_opp_l by lia.
  pose proof (Z.quot_pos (- n) (Z.pos d) ltac:(lia) ltac:(lia)). lia.
Qed.

Lemma py_int_at_least_one (x : Q) : (1 <= py_int x)%Z <-> (1 <= x)%Q.
Proof.
  destruct (Qlt_le_dec x 0) as [Hneg | Hpos].
  - pose proof (py_int_nonpos x ltac:(lra)). split; [lia | lra].
  - destruct (py_int_floor x Hpos) as [Hlo Hhi]. split.
    + intros H1. apply Qle_trans with (inject_Z (py_int x)); [|exact Hlo].
      change 1%Q with (inject_Z 1). by rewrite <- Zle_Qle.
    + intros H1. assert (inject_Z 1 < inject_Z (py_int x) + inject_Z 1)%Q as H0
        by (change (inject_Z 1) with 1%Q; lra).
      rewrite <- inject_Z_plus, <- Zlt_Qlt in H0. lia.
Qed.

(** ** The regions of a layout *)

Lemma row_lookup (secs : list section_dict) (i : nat) (r : Region) :
  create_row_layout secs !! i = Some r ->
  exists d, secs !! i = Some d /\
    r = row_cell MARGIN_X MARGIN_Y SECTION_MARGIN FULL_WIDTH FULL_HEIGHT secs i d.
Proof.
  unfold create_row_layout, row_layout_on. rewrite list_lookup_imap.
  destruct (secs !! i) as [d|]; [|discriminate]. intros [= <-]. by exists d.
Qed.

Lemma column_lookup (secs : list section_dict) (i : nat) (r : Region) :
  create_column_layout secs !! i = Some r ->
  exists d, secs !! i = Some d /\
    r = column_box (column_cell MARGIN_X MARGIN_Y SECTION_MARGIN FULL_WIDTH
                      FULL_HEIGHT secs i d).
Proof.
  unfold create_column_layout, column_layout_on, column_geometry.
  change (map ?f ?l) with (f <$> l).
  rewrite list_lookup_fmap, list_lookup_imap.
  destruct (secs !! i) as [d|]; [|discriminate]. intros [= <-]. by exists d.
Qed.

Lemma layout_lengths (secs : list section_dict) :
  length (create_column_layout secs) = length secs
  /\ length (create_row_layout secs) = length secs.
Proof.
  split.
  - unfold create_column_layout, column_layout_on, column_geometry.
    by rewrite length_map, length_imap.
  - unfold create_row_layout, row_layout_on. by rewrite length_imap.
Qed.








(** ** How much of the canvas a layout covers *)

Lemma previous_sections_size_all (secs : list section_dict) :
  previous_sections_size secs (length secs)
  = py_sum (map (size_factor (length secs)) secs).
Proof. unfold previous_sections_size. by rewrite firstn_all. Qed.

Lemma last_row_lookup (secs : list section_dict) (r : Region) :
  last (create_row_layout secs) = Some r ->
  exists n d, length secs = S n /\ secs !! n = Some d /\
    r = row_cell MARGIN_X MARGIN_Y SECTION_MARGIN FULL_WIDTH FULL_HEIGHT secs n d.
Proof.
  rewrite last_lookup.
  destruct (layout_lengths secs) as [_ Hlen]. rewrite Hlen.
  destruct (length secs) as [|n] eqn:Hn; simpl.
  - intros Hr. apply lookup_lt_Some in Hr. lia.
  - intros Hr. apply row_lookup in Hr as (d & Hd & ->). by exists n, d.
Qed.

(** The lower edge of the last row: the full height, off by the usable
    height times what the shares miss or exceed of a whole. *)
Lemma last_row_bottom (secs : list section_dict) (r : Region) :
  last (create_row_layout secs) = Some r ->
  (bottom_edge r ==
   MARGIN_Y + FULL_HEIGHT
   + (FULL_HEIGHT - SECTION_MARGIN * inject_Z (len secs - 1))
     * (py_sum (map (size_factor (length secs)) secs) - 1))%Q.
Proof.
  intros Hr. apply last_row_lookup in Hr as (n & d & Hn & Hd & ->).
  assert (py_sum (map (size_factor (length secs)) secs)
          = previous_sections_size secs (S n)) as ->
    by (rewrite <- Hn; symmetry; apply previous_sections_size_all).
  rewrite (previous_sections_size_S _ _ _ Hd).
  unfold bottom_edge, row_cell. cbn [r_y r_height].
  unfold len. rewrite Hn.
  replace (Z.of_nat (S n) - 1)%Z with (Z.of_nat n) by lia. ring.
Qed.

Lemma plain_shares_sum_to_one (secs : list section_dict) :
  secs <> [] -> Forall plain secs ->
  (py_sum (map (size_factor (length secs)) secs) == 1)%Q.
Proof.
  intros Hne Hplain.
  assert (map (size_factor (length secs)) secs
          = map (fun _ => 1 / inject_Z (Z.of_nat (length secs)))%Q secs) as ->.
  { apply map_ext_in. intros d Hd. unfold size_factor.
    rewrite Forall_forall in Hplain. rewrite (Hplain d); [done|].
    by apply list_elem_of_In. }
  rewrite py_sum_constant. field.
  destruct secs; [done|]. change 0%Q with (inject_Z 0). rewrite inject_Z_injective.
  simpl. lia.
Qed.

(** X4: rows without sizes fill the usable height exactly: the lower
    edge of the last row is at [1.5 + 5.0], for any number of rows. *)
Theorem unsized_rows_fill_the_height (secs : list section_dict) (r : Region) :
  Forall plain secs ->
  last (create_row_layout secs) = Some r ->
  (bottom_edge r == MARGIN_Y + FULL_HEIGHT)%Q.
Proof.
  intros Hplain Hr. rewrite (last_row_bottom secs r Hr).
  assert (secs <> []) as Hne by (intros ->; discriminate).
  rewrite (plain_shares_sum_to_one secs Hne Hplain). ring.
Qed.

Lemma unsized_rows_fill_the_height_witness :
  let secs := [mkDict "One" [] SizeMissing; mkDict "Two" [] SizeNone;
               mkDict "Three" [] SizeMissing] in
  exists r, last (create_row_layout secs) = Some r
            /\ (bottom_edge r == MARGIN_Y + FULL_HEIGHT)%Q.
Proof.
  intros secs. eexists. split; [reflexivity|].
  apply (unsized_rows_fill_the_height secs); [by repeat constructor | reflexivity].
Defined.

Lemma positive_shares_sum (secs : list section_dict) (n : nat) :
  Forall (fun d => exists q, d_size d = SizeNum q /\ (0 < q)%Q) secs ->
  (py_sum (map (size_factor n) secs) == py_sum (omap size_value secs) / 100)%Q.
Proof.
  induction 1 as [|d secs (q & Hq & Hpos) _ IH].
  - by vm_compute.
  - cbn [map]. csimpl. rewrite py_sum_cons, IH.
    unfold size_factor, truthy_size, size_value. rewrite Hq. csimpl.
    destruct (Qeq_bool q 0) eqn:Hz; [apply Qeq_bool_iff in Hz; lra|].
    rewrite py_sum_cons. field.
Qed.

(** X5: the shares are not renormalised.  For rows with positive sizes
    whose sum lies in the accepted band [[98, 102]], on a slide of at most
    26 rows, the lower edge of the last row is within a tenth of an inch
    of the full height [1.5 + 5.0]: short of it when the sizes sum to less
    than 100, beyond it when they sum to more. *)
Theorem sized_rows_miss_the_height_by_little (secs : list section_dict) (r : Region) :
  Forall (fun d => exists q, d_size d = SizeNum q /\ (0 < q)%Q) secs ->
  (98 <= py_sum (omap size_value secs) <= 102)%Q ->
  (length secs <= 26)%nat ->
  last (create_row_layout secs) = Some r ->
  (MARGIN_Y + FULL_HEIGHT - 0.1 <= bottom_edge r <= MARGIN_Y + FULL_HEIGHT + 0.1)%Q
  /\ (py_sum (omap size_value secs) == 100 -> bottom_edge r == MARGIN_Y + FULL_HEIGHT)%Q.
Proof.
  intros Hpos Hband Hlen Hr. rewrite (last_row_bottom secs r Hr).
  rewrite (positive_shares_sum secs (length secs) Hpos).
  pose proof (usable_extent_nonneg FULL_HEIGHT 26 (length secs) Hlen ltac:(by vm_compute)) as Hth.
  fold (len secs) in Hth.
  assert (FULL_HEIGHT - SECTION_MARGIN * inject_Z (len secs - 1) <= 5)%Q as Hth'.
  { apply last_row_lookup in Hr as (n & d & Hn & _ & _). unfold len. rewrite Hn.
    replace (Z.of_nat (S n) - 1)%Z with (Z.of_nat n) by lia.
    assert (0 <= inject_Z (Z.of_nat n))%Q
      by (change 0%Q with (inject_Z 0); rewrite <- Zle_Qle; lia).
    unfold FULL_HEIGHT, SECTION_MARGIN. lra. }
  set (th := (FULL_HEIGHT - SECTION_MARGIN * inject_Z (len secs - 1))%Q) in *.
  set (total := py_sum (omap size_value secs)) in *.
  clearbody th total. unfold MARGIN_Y, FULL_HEIGHT.
  assert (total / 100 - 1 == (total - 100) / 100)%Q as -> by field.
  split.
  - assert (-0.02 <= (total - 100) / 100 <= 0.02)%Q as [Hlo Hhi].
    { split; [apply Qle_shift_div_l | apply Qle_shift_div_r]; lra. }
    split; nra.
  - intros Htot. rewrite Htot. field.
Qed.

Lemma sized_rows_miss_the_height_by_little_witness :
  let secs := [mkDict "A" [] (SizeNum 33); mkDict "B" [] (SizeNum 33);
               mkDict "C" [] (SizeNum 33)] in
  exists r, last (create_row_layout secs) = Some r
    /\ (MARGIN_Y + FULL_HEIGHT - 0.1 <= bottom_edge r <= MARGIN_Y + FULL_HEIGHT + 0.1)%Q
    /\ (py_sum (omap size_value secs) == 100 -> bottom_edge r == MARGIN_Y + FULL_HEIGHT)%Q.
Proof.
  intros secs. eexists. split; [reflexivity|].
  apply (sized_rows_miss_the_height_by_little secs).
  - repeat constructor; eexists; (split; [reflexivity | by vm_compute]).
  - split; by vm_compute.
  - simpl. lia.
  - reflexivity.
Defined.

(** ** The text boxes of a section *)



Lemma inject_nat_le_bound (n : nat) (k : Z) (x : Q) :
  (inject_Z k <= x)%Q -> (x < inject_Z (k + 1))%Q ->
  (inject_Z (Z.of_nat n) <= x)%Q <-> (Z.of_nat n <= k)%Z.
Proof.
  intros Hlo Hhi. split.
  - intros Hn. assert (inject_Z (Z.of_nat n) < inject_Z (k + 1))%Q as H by lra.
    rewrite <- Zlt_Qlt in H. lia.
  - intros Hn. apply Qle_trans with (inject_Z k); [|exact Hlo]. by rewrite <- Zle_Qle.
Qed.

Lemma plain_size_factor (secs : list section_dict) d :
  Forall plain secs -> d ∈ secs ->
  size_factor (length secs) d = (1 / inject_Z (Z.of_nat (length secs)))%Q.
Proof.
  intros Hplain Hd. unfold size_factor.
  rewrite Forall_forall in Hplain. by rewrite (Hplain d Hd).
Qed.

Lemma inject_len_pos {A} (l : list A) (x : A) (i : nat) :
  l !! i = Some x -> (0 < inject_Z (Z.of_nat (length l)))%Q.
Proof.
  intros Hx. apply lookup_lt_Some in Hx.
  change 0%Q with (inject_Z 0). rewrite <- Zlt_Qlt. lia.
Qed.

(** X7: rows without sizes leave room for the content text only up to
    five rows.  The content box of a row has a height that is not negative
    exactly when the slide has at most 5 rows; from 6 rows on,
    [add_section_content] asks for a text box of negative height. *)
Theorem unsized_rows_content_height (secs : list section_dict) (i : nat) (r : Region) :
  Forall plain secs ->
  create_row_layout secs !! i = Some r ->
  (0 <= r_height (content_box r))%Q <-> (length secs <= 5)%nat.
Proof.
  intros Hplain Hr. apply row_lookup in Hr as (d & Hd & ->).
  pose proof (inject_len_pos _ _ _ Hd) as Hn.
  unfold content_box, row_cell. cbn [r_height].
  rewrite (plain_size_factor secs d Hplain) by (by eapply list_elem_of_lookup_2).
  unfold len, Z.sub. rewrite inject_Z_plus.
  change (inject_Z (- (1))) with (- (1))%Q.
  unfold FULL_HEIGHT, SECTION_MARGIN.
  set (n := inject_Z (Z.of_nat (length secs))) in *.
  assert ((5.0 - 0.2 * (n + - (1))) * (1 / n) - 0.8 == (5.2 - n) / n)%Q as -> by (field; lra).
  assert (0 <= (5.2 - n) / n <-> n <= 5.2)%Q as ->.
  { split; intros H.
    - apply Qnot_lt_le. intros Hlt.
      assert ((5.2 - n) / n < 0)%Q; [|lra].
      apply Qlt_shift_div_r; lra.
    - apply Qle_shift_div_l; lra. }
  subst n. rewrite (inject_nat_le_bound (length secs) 5 5.2) by (by vm_compute). lia.
Qed.

Lemma unsized_rows_content_height_witness :
  let secs := replicate 6 (mkDict "Row" ["line"] SizeMissing) in
  exists r, create_row_layout secs !! 0%nat = Some r
            /\ ((0 <= r_height (content_box r))%Q <-> (length secs <= 5)%nat).
Proof.
  intros secs. eexists. split; [reflexivity|].
  apply (unsized_rows_content_height secs 0); [by repeat constructor | reflexivity].
Defined.

(** X8: columns without sizes keep a text width only up to ten columns.
    The drawn width [int(width)] is at least one inch, so that the text
    boxes (0.2 narrower) have a positive width, exactly when the slide has
    at most 10 columns; from 11 columns on the text boxes are asked for
    with a width that is not positive. *)
Theorem unsized_columns_text_width (secs : list section_dict) (i : nat) (r : Region) :
  Forall plain secs ->
  create_column_layout secs !! i = Some r ->
  (0 < r_width (header_box r))%Q <-> (length secs <= 10)%nat.
Proof.
  intros Hplain Hr. apply column_lookup in Hr as (d & Hd & ->).
  pose proof (inject_len_pos _ _ _ Hd) as Hn.
  unfold header_box, column_box. cbn [r_width].
  set (w := r_width (column_cell _ _ _ _ _ secs i d)).
  assert ((0 < inject_Z (py_int w) - 0.2)%Q <-> (1 <= py_int w)%Z) as ->.
  { split; intros H.
    - assert (inject_Z 0 < inject_Z (py_int w))%Q as H0 by (change (inject_Z 0) with 0%Q; lra).
      rewrite <- Zlt_Qlt in H0. lia.
    - assert (inject_Z 1 <= inject_Z (py_int w))%Q as H1 by (by rewrite <- Zle_Qle).
      change (inject_Z 1) with 1%Q in H1. lra. }
  rewrite py_int_at_least_one. subst w.
  unfold column_cell. cbn [r_width].
  rewrite (plain_size_factor secs d Hplain) by (by eapply list_elem_of_lookup_2).
  unfold len, Z.sub. rewrite inject_Z_plus.
  change (inject_Z (- (1))) with (- (1))%Q.
  unfold FULL_WIDTH, SECTION_MARGIN.
  set (n := inject_Z (Z.of_nat (length secs))) in *.
  assert ((12.33 - 0.2 * (n + - (1))) * (1 / n) == (12.53 - 0.2 * n) / n)%Q as -> by (field; lra).
  assert (1 <= (12.53 - 0.2 * n) / n <-> n * 1.2 <= 12.53)%Q as ->.
  { split; intros H.
    - apply Qnot_lt_le. intros Hlt.
      assert ((12.53 - 0.2 * n) / n < 1)%Q; [|lra].
      apply Qlt_shift_div_r; lra.
    - apply Qle_shift_div_l; lra. }
  subst n. split; intros H.
  - destruct (Z_le_gt_dec (Z.of_nat (length secs)) 10) as [Hle | Hgt]; [lia|].
    assert (inject_Z 11 <= inject_Z (Z.of_nat (length secs)))%Q as H11
      by (rewrite <- Zle_Qle; lia).
    change (inject_Z 11) with 11%Q in H11. lra.
  - assert (inject_Z (Z.of_nat (length secs)) <= inject_Z 10)%Q as H10
      by (rewrite <- Zle_Qle; lia).
    change (inject_Z 10) with 10%Q in H10. lra.
Qed.

Lemma unsized_columns_text_width_witness :
  let secs := replicate 11 (mkDict "Col" ["line"] SizeMissing) in
  exists r, create_column_layout secs !! 3%nat = Some r
            /\ ((0 < r_width (header_box r))%Q <-> (length secs <= 10)%nat).
Proof.
  intros secs. eexists. split; [reflexivity|].
  apply (unsized_columns_text_width secs 3); [by repeat constructor | reflexivity].
Defined.

(** ** Deleting and creating documents *)

(** The outcomes of [delete_ppt]. *)
Lemma delete_ppt_cases (name : string) (w : world) :
  let path := output_path (pptx name) in
  match delete_ppt name w with
  | (Ok _, w') =>
      truthy_str name = true /\ is_Some (files w !! path)
      /\ files w' = delete path (files w)
  | (Raise e, w') =>
      files w' = files w
      /\ ((e = NameRequired /\ truthy_str name = false)
          \/ (e = FileNotFound (pptx name) /\ files w !! path = None))
  end.
Proof.
  intros path. unfold delete_ppt.
  destruct (truthy_str name); simpl; [|by auto].
  fold path. unfold mbind, io_bind, bind, path_exists, raise, remove.
  destruct (files w !! path) as [prs|] eqn:Hfile; simpl.
  - eauto.
  - by auto.
Qed.

(** X9: [delete_ppt] removes the file of that name and nothing else; when
    it raises (no name, or no such file) the files are left as they
    were. *)
Theorem delete_ppt_outcome (name : string) (w : world) :
  let path := output_path (pptx name) in
  match delete_ppt name w with
  | (Ok _, w') =>
      truthy_str name = true /\ is_Some (files w !! path)
      /\ files w' = delete path (files w)
  | (Raise e, w') =>
      files w' = files w
      /\ ((e = NameRequired /\ truthy_str name = false)
          \/ (e = FileNotFound (pptx name) /\ files w !! path = None))
  end.
Proof. exact (delete_ppt_cases name w). Qed.

(** X10: deleting a document a second time raises [FileNotFoundError] and
    changes nothing. *)
Theorem delete_ppt_twice (name : string) (w w1 : world) :
  delete_ppt name w = (Ok tt, w1) ->
  exists w2, delete_ppt name w1 = (Raise (FileNotFound (pptx name)), w2)
             /\ files w2 = files w1.
Proof.
  intros Hfirst.
  pose proof (delete_ppt_cases name w) as H1. rewrite Hfirst in H1.
  destruct H1 as (Hname & _ & Hfiles).
  pose proof (delete_ppt_cases name w1) as H2.
  destruct (delete_ppt name w1) as [[[]|e] w2].
  - destruct H2 as (_ & [prs Hprs] & _).
    rewrite Hfiles, lookup_delete_eq in Hprs. discriminate.
  - destruct H2 as (Hsame & [[_ Hno] | [-> _]]); [congruence|]. by exists w2.
Qed.

Lemma delete_ppt_twice_witness :
  let w := mkWorld {[ output_path (pptx "deck") := [title_slide "Deck"] ]} [] in
  let w1 := snd (delete_ppt "deck" w) in
  exists w2, delete_ppt "deck" w1 = (Raise (FileNotFound (pptx "deck")), w2)
             /\ files w2 = files w1.
Proof.
  intros w w1. apply (delete_ppt_twice "deck" w w1). reflexivity.
Defined.

(** What [create_ppt] leaves behind, in all its outcomes. *)
Lemma create_ppt_outcome (name title : string) (slides : list slide_data) (w : world) :
  let path := output_path (pptx name) in
  match create_ppt name title slides w with
  | (r, w') =>
      if truthy_str name then
        match files w !! TEMPLATE with
        | Some template =>
            if bool_decide (path ∈ unwritable w) then
              r = Raise SaveFailed /\ files w' = files w
            else
              exists built,
                files w' = <[path := template ++ title_slide title :: built]> (files w)
                /\ title_text <$> built = sd_slide_title <$> take (length built) slides
                /\ match r with
                   | Ok file_path => file_path = path /\ length built = length slides
                   | Raise _ => (length built < length slides)%nat
                   end
        | None => r = Raise TemplateMissing /\ files w' = files w
        end
      else r = Raise NameRequired /\ w' = w
  end.
Proof.
  intros path. unfold create_ppt.
  destruct (truthy_str name); [|done].
  unfold mbind, io_bind, bind, open_presentation, save, mret, io_ret, ret, negb.
  cbv beta iota. fold path.
  destruct (files w !! TEMPLATE) as [template|] eqn:Htpl; [|done].
  cbn [unwritable log].
  destruct (bool_decide (path ∈ unwritable w)); [done|].
  set (w1 := log (Save _) _).
  assert (files w1 !! path = Some (template ++ [title_slide title])) as Hfile1
    by apply lookup_insert_eq.
  pose proof (for_each_slides_outcome name slides w1 _ Hfile1) as Hloop.
  destruct (for_each (add_slide_data name) slides w1) as [[[]|e] w2];
    destruct Hloop as (built & Hfiles & Htitles & Hlen & _);
    exists built; (split; [|by split]);
    rewrite Hfiles; subst w1; simpl; fold path;
    by rewrite insert_insert_eq, <- app_assoc.
Qed.

(** X11: a [create_ppt] call that returns has written, under
    [output/<name>.pptx], the template's slides, the title slide, and one
    slide per element of [slides] with its title, in order; what the file
    held before is gone.  The path returned is that file's. *)
Theorem create_ppt_writes_the_whole_document
    (name title : string) (slides : list slide_data) (w w' : world) (file_path : string) :
  create_ppt name title slides w = (Ok file_path, w') ->
  file_path = output_path (pptx name)
  /\ exists template built,
       files w !! TEMPLATE = Some template
       /\ files w' !! file_path = Some (template ++ title_slide title :: built)
       /\ title_text <$> built = sd_slide_title <$> slides.
Proof.
  intros Hrun. pose proof (create_ppt_outcome name title slides w) as H.
  rewrite Hrun in H. simpl in H.
  destruct (truthy_str name); [|by destruct H].
  destruct (files w !! TEMPLATE) as [template|]; [|by destruct H].
  destruct (bool_decide _); [by destruct H|].
  destruct H as (built & Hfiles & Htitles & -> & Hlen).
  split; [done|]. exists template, built. split; [done|].
  split; [by rewrite Hfiles, lookup_insert_eq|].
  rewrite Htitles, Hlen. by rewrite firstn_all.
Qed.

Lemma create_ppt_writes_the_whole_document_witness :
  let w := mkWorld {[ TEMPLATE := [];
                      output_path (pptx "deck") := [title_slide "Old"; title_slide "Older"] ]} [] in
  let slides := [mkSlideData "Agenda" (Some "rows") None (Some 2%Z)
                   [ArgDict (mkDict "Now" [] SizeMissing);
                    ArgDict (mkDict "Next" [] SizeMissing)];
                 mkSlideData "Thanks" None None None []] in
  let w' := snd (create_ppt "deck" "Kickoff" slides w) in
  output_path (pptx "deck") = output_path (pptx "deck")
  /\ exists template built,
       files w !! TEMPLATE = Some template
       /\ files w' !! output_path (pptx "deck")
          = Some (template ++ title_slide "Kickoff" :: built)
       /\ title_text <$> built = sd_slide_title <$> slides.
Proof.
  intros w slides w'.
  apply (create_ppt_writes_the_whole_document "deck" "Kickoff" slides w w').
  reflexivity.
Defined.

Lemma append_length (a b : string) :
  String.length (String.append a b) = (String.length a + String.length b)%nat.
Proof. induction a as [|c a IH]; simpl; [done | by rewrite IH]. Qed.

Lemma append_inj_l (a b s : string) :
  String.append a s = String.append b s -> a = b.
Proof.
  revert b. induction a as [|c a IH]; intros [|d b] H; simpl in H.
  - done.
  - apply (f_equal String.length) in H. rewrite !append_length in H. simpl in H. lia.
  - apply (f_equal String.length) in H. rewrite !append_length in H. simpl in H. lia.
  - injection H as -> H. f_equal. by apply IH.
Qed.

(** Two names have the same file only when they are the same name. *)
Lemma output_path_inj (name other : string) :
  output_path (pptx name) = output_path (pptx other) -> name = other.
Proof.
  unfold output_path, pptx. intros H.
  apply (inj (String.append "output/")) in H. by apply append_inj_l in H.
Qed.

(** A name that climbs out of [output/] is not a plain one. *)
Example climbing_name_is_not_plain :
  plain_name "../ppt_templates/bain_template" = false
  /\ plain_name "reports/q1" = false
  /\ plain_name "bain_template" = true.
Proof. repeat split. Qed.

(** X12: [create_ppt] leaves the other files alone.  For a name without a
    path separator, whatever the outcome, the template is as it was, and
    so is the document of every other such name. *)
Theorem create_ppt_touches_one_file
    (name other title : string) (slides : list slide_data) (w : world) :
  plain_name name = true -> plain_name other = true -> other <> name ->
  let w' := snd (create_ppt name title slides w) in
  files w' !! TEMPLATE = files w !! TEMPLATE
  /\ files w' !! output_path (pptx other) = files w !! output_path (pptx other).
Proof.
  intros _ _ Hother w'. subst w'.
  assert (output_path (pptx other) <> output_path (pptx name)) as Hpath
    by (intros H; by apply output_path_inj in H).
  pose proof (pptx_path_not_template name) as Htpl.
  pose proof (create_ppt_outcome name title slides w) as H.
  destruct (create_ppt name title slides w) as [r w']. simpl in *.
  destruct (truthy_str name); [|by destruct H as [_ ->]].
  destruct (files w !! TEMPLATE) as [template|] eqn:Hfile; [|by destruct H as [_ ->]].
  destruct (bool_decide _); [by destruct H as [_ ->]|].
  destruct H as (built & -> & _). by rewrite !lookup_insert_ne.
Qed.

Lemma create_ppt_touches_one_file_witness :
  let w := mkWorld {[ TEMPLATE := [title_slide "Master"];
                      output_path (pptx "other") := [title_slide "Other"] ]} [] in
  let w' := snd (create_ppt "deck" "Kickoff" [] w) in
  files w' !! TEMPLATE = files w !! TEMPLATE
  /\ files w' !! output_path (pptx "other") = files w !! output_path (pptx "other").
Proof.
  intros w.
  apply (create_ppt_touches_one_file "deck" "other" "Kickoff" [] w);
    [reflexivity | reflexivity | discriminate].
Defined.

(** X13: creating a document and then deleting it leaves the files as
    they would be without that name.  For a name without a path separator
    whose file can be written, and with the template in place,
    [delete_ppt] succeeds after [create_ppt] and removes what was written,
    whether [create_ppt] returned or raised while adding slides. *)
Theorem create_then_delete (name title : string) (slides : list slide_data)
    (w : world) (template : Presentation) :
  plain_name name = true ->
  truthy_str name = true ->
  files w !! TEMPLATE = Some template ->
  output_path (pptx name) ∉ unwritable w ->
  exists w2,
    delete_ppt name (snd (create_ppt name title slides w)) = (Ok tt, w2)
    /\ files w2 = delete (output_path (pptx name)) (files w).
Proof.
  intros _ Hname Htpl Hw. pose proof (create_ppt_outcome name title slides w) as H.
  destruct (create_ppt name title slides w) as [r w1]. cbn [snd] in *.
  unfold Presentation in *. rewrite Hname, Htpl in H.
  rewrite bool_decide_eq_false_2 in H by done.
  destruct H as (built & Hfiles & _).
  pose proof (delete_ppt_cases name w1) as Hd.
  destruct (delete_ppt name w1) as [[[]|e] w2]; simpl in Hd.
  - exists w2. split; [done|]. destruct Hd as (_ & _ & ->).
    by rewrite Hfiles, delete_insert_eq.
  - destruct Hd as (_ & [[_ Hno] | [_ Hno]]); [congruence|].
    by rewrite Hfiles, lookup_insert_eq in Hno.
Qed.

Lemma create_then_delete_witness :
  let w := mkWorld {[ TEMPLATE := [] ]} [] in
  let slides := [mkSlideData "Untitled layout" (Some "columns") (Some 2%Z) None []] in
  exists w2,
    delete_ppt "deck" (snd (create_ppt "deck" "Kickoff" slides w)) = (Ok tt, w2)
    /\ files w2 = delete (output_path (pptx "deck")) (files w).
Proof.
  intros w slides.
  apply (create_then_delete "deck" "Kickoff" slides w []);
    [reflexivity | reflexivity | reflexivity | apply not_elem_of_empty].
Defined.

(** ** Adding a slide *)

Lemma mapM_as_dict (secs : list section_arg) (ds : list section_dict) :
  mapM as_dict secs = Some ds -> ds = process <$> secs.
Proof.
  intros H. apply mapM_Some in H.
  induction H as [|a d secs ds Ha _ IH]; [done|].
  destruct a as [d0|s]; simpl in Ha; [|discriminate].
  injection Ha as ->. by rewrite fmap_cons, <- IH.
Qed.

Lemma draw_layout_headers (layout : list section_dict -> list Region)
    (ds : list section_dict) :
  length (layout ds) = length ds ->
  header_text <$> draw_layout layout ds = d_header <$> ds
  /\ box <$> draw_layout layout ds = layout ds.
Proof.
  unfold draw_layout. generalize (layout ds). intros regions.
  revert ds. induction regions as [|r regions IH]; intros [|d ds] Hlen;
    try discriminate; [done|].
  injection Hlen as Hlen. destruct (IH ds Hlen) as [Hh Hb].
  cbn [zip_with]. rewrite !fmap_cons, Hh, Hb. done.
Qed.

Lemma build_slide_shapes t columns rows secs slide :
  build_slide t columns rows secs = Ok slide ->
  if truthy_int columns then
    header_text <$> shapes slide = d_header ∘ process <$> secs
    /\ box <$> shapes slide = create_column_layout (process <$> secs)
  else if truthy_int rows then
    header_text <$> shapes slide = d_header ∘ process <$> secs
    /\ box <$> shapes slide = create_row_layout (process <$> secs)
  else shapes slide = [].
Proof.
  unfold build_slide, run_layout.
  destruct (layout_lengths (process <$> secs)) as [Hc Hr].
  destruct (truthy_int columns); [|destruct (truthy_int rows)].
  - destruct (mapM as_dict secs) as [ds|] eqn:Hds; [|discriminate].
    apply mapM_as_dict in Hds as ->. intros [= <-]. cbn [shapes].
    rewrite list_fmap_compose. by apply draw_layout_headers.
  - destruct (mapM as_dict secs) as [ds|] eqn:Hds; [|discriminate].
    apply mapM_as_dict in Hds as ->. intros [= <-]. cbn [shapes].
    rewrite list_fmap_compose. by apply draw_layout_headers.
  - by intros [= <-].
Qed.

Lemma add_slide_ok_inv name t columns rows secs (w w' : world) :
  add_slide name t columns rows secs w = (Ok tt, w') ->
  exists prs slide,
    files w !! output_path (pptx name) = Some prs
    /\ validate_layout columns rows secs = Ok tt
    /\ build_slide t columns rows secs = Ok slide
    /\ files w' = <[output_path (pptx name) := prs ++ [slide]]> (files w).
Proof.
  unfold add_slide.
  destruct (truthy_str name); simpl; [|discriminate].
  destruct (truthy_str t); simpl; [|discriminate].
  unfold mbind, io_bind, bind, path_exists, raise, lift, open_presentation, save.
  destruct (files w !! output_path (pptx name)) as [prs|] eqn:Hfile; simpl;
    [|discriminate].
  destruct (validate_layout columns rows secs) as [[]|e]; [|discriminate].
  rewrite Hfile.
  destruct (build_slide t columns rows secs) as [slide|e]; [|discriminate].
  cbn [unwritable log]. destruct (bool_decide _); [discriminate|].
  intros [= <-]. by exists prs, slide.
Qed.

(** X14: a successful [add_slide] appends exactly one slide to the
    document and keeps the slides that were there, in place.  The new
    slide carries the title; with [columns] (or else [rows]) given it has
    one box per section, in order, at the regions of the column (row)
    layout and headed by the section headers; with neither it has no box.
    No other file changes. *)
Theorem add_slide_appends_one_slide name t columns rows secs (w w' : world) :
  add_slide name t columns rows secs w = (Ok tt, w') ->
  exists prs slide,
    files w !! output_path (pptx name) = Some prs
    /\ files w' = <[output_path (pptx name) := prs ++ [slide]]> (files w)
    /\ title_text slide = t
    /\ if truthy_int columns then
         header_text <$> shapes slide = d_header ∘ process <$> secs
         /\ box <$> shapes slide = create_column_layout (process <$> secs)
       else if truthy_int rows then
         header_text <$> shapes slide = d_header ∘ process <$> secs
         /\ box <$> shapes slide = create_row_layout (process <$> secs)
       else shapes slide = [].
Proof.
  intros Hrun. apply add_slide_ok_inv in Hrun as (prs & slide & Hfile & _ & Hb & Hfiles).
  exists prs, slide. repeat split; try done.
  - by eapply build_slide_title.
  - by apply (build_slide_shapes t).
Qed.

Lemma add_slide_appends_one_slide_witness :
  let w := mkWorld {[ output_path (pptx "deck") := [title_slide "Deck"] ]} [] in
  let secs := [ArgDict (mkDict "Left" ["a"] (SizeNum 60));
               ArgDict (mkDict "Right" ["b"; "c"] (SizeNum 40))] in
  let w' := snd (add_slide "deck" "Split" (Some 2%Z) None secs w) in
  exists prs slide,
    files w !! output_path (pptx "deck") = Some prs
    /\ files w' = <[output_path (pptx "deck") := prs ++ [slide]]> (files w)
    /\ title_text slide = "Split"
    /\ if truthy_int (Some 2%Z) then
         header_text <$> shapes slide = d_header ∘ process <$> secs
         /\ box <$> shapes slide = create_column_layout (process <$> secs)
       else if truthy_int None then
         header_text <$> shapes slide = d_header ∘ process <$> secs
         /\ box <$> shapes slide = create_row_layout (process <$> secs)
       else shapes slide = [].
Proof.
  intros w secs w'.
  apply (add_slide_appends_one_slide "deck" "Split" (Some 2%Z) None secs w w').
  reflexivity.
Defined.

(** X15: without [columns] and [rows], the sections of [add_slide] are
    checked for their sizes and then not used: when the size checks pass,
    the call does exactly what the call without sections does. *)
Theorem add_slide_without_layout_ignores_sections name t columns rows secs (w : world) :
  truthy_int columns = false -> truthy_int rows = false ->
  check_sizes (process <$> secs) = Ok tt ->
  add_slide name t columns rows secs w = add_slide name t None None [] w.
Proof.
  intros Hc Hr Hsz. unfold add_slide.
  destruct (truthy_str name); simpl; [|done].
  destruct (truthy_str t); simpl; [|done].
  unfold validate_layout, build_slide. rewrite Hc, Hr. simpl.
  change (map process secs) with (process <$> secs). by rewrite Hsz.
Qed.

Lemma add_slide_without_layout_ignores_sections_witness :
  let w := mkWorld {[ output_path (pptx "deck") := [title_slide "Deck"] ]} [] in
  let secs := [ArgDict (mkDict "Left" ["a"] (SizeNum 60));
               ArgDict (mkDict "Right" ["b"] (SizeNum 40))] in
  add_slide "deck" "Plain" (Some 0%Z) None secs w = add_slide "deck" "Plain" None None [] w.
Proof.
  intros w secs.
  apply (add_slide_without_layout_ignores_sections "deck" "Plain" (Some 0%Z) None secs w);
    reflexivity.
Defined.

(** ** The JSON entry point *)

Lemma for_each_skips_untitled name (slides : list slide_data) (w : world) :
  for_each (add_json_slide name) slides w
  = for_each (add_slide_data name) (filter (fun sd => titled sd = true) slides) w.
Proof.
  revert w. induction slides as [|sd slides IH]; intros w; [done|].
  cbn [for_each]. unfold mbind, io_bind, bind.
  assert (add_json_slide name sd w
          = if truthy_str (sd_slide_title sd) then add_slide_data name sd w
            else (Ok tt, w)) as ->
    by (unfold add_json_slide; by destruct (truthy_str (sd_slide_title sd))).
  destruct (truthy_str (sd_slide_title sd)) eqn:Ht.
  - rewrite filter_cons_True by done. cbn [for_each].
    unfold mbind, io_bind, bind.
    destruct (add_slide_data name sd w) as [[[]|e] w1]; [apply IH | done].
  - rewrite filter_cons_False by (unfold titled; congruence). apply IH.
Qed.

(** X16: for a presentation object with a name, [create_ppt_from_json]
    does what [create_ppt] does when given the same name, the title (or
    "New Presentation"), and the slides that have a title: slides without
    a title are skipped, where [create_ppt] would raise on them. *)
Theorem create_ppt_from_json_is_create_ppt (pd : presentation_data) (w : world) :
  truthy_str (pd_name pd) = true ->
  create_ppt_from_json (Some pd) w
  = let '(r, w') := create_ppt (pd_name pd) (default "New Presentation" (pd_title pd))
                      (filter (fun sd => titled sd = true) (pd_slides pd)) w in
    (as_json_result r, w').
Proof.
  intros Hname. unfold create_ppt_from_json, create_ppt.
  rewrite Hname.
  unfold mbind, io_bind, bind, mret, io_ret, ret, negb. cbv beta iota.
  destruct (open_presentation TEMPLATE TemplateMissing w) as [[prs|e] w1]; [|done].
  destruct (save _ _ w1) as [[[]|e] w2]; [|done].
  cbn [for_each]. unfold ret. cbv beta iota.
  rewrite for_each_skips_untitled.
  by destruct (for_each (add_slide_data (pd_name pd)) _ w2) as [[[]|e] w3].
Qed.

Lemma create_ppt_from_json_is_create_ppt_witness :
  let w := mkWorld {[ TEMPLATE := [] ]} [] in
  let pd := mkPresentationData "deck" None
              [mkSlideData "" None None None [ArgDict (mkDict "Lost" [] SizeMissing)];
               mkSlideData "Kept" None None None [ArgDict (mkDict "Here" [] SizeMissing)]] in
  create_ppt_from_json (Some pd) w
  = let '(r, w') := create_ppt "deck" "New Presentation"
                      (filter (fun sd => titled sd = true) (pd_slides pd)) w in
    (as_json_result r, w').
Proof.
  intros w pd. apply (create_ppt_from_json_is_create_ppt pd w). reflexivity.
Defined.

(** ** The tool functions *)

Lemma add_slide_raise_inv name t columns rows secs (w w' : world) e :
  add_slide name t columns rows secs w = (Raise e, w') ->
  e = PptNameRequired \/ e = SlideTitleRequired \/ e = FileNotFound (pptx name)
  \/ validate_layout columns rows secs = Raise e
  \/ e = NotSubscriptable \/ e = SaveFailed.
Proof.
  unfold add_slide.
  destruct (truthy_str name); simpl; [|intros [= <-]; by auto].
  destruct (truthy_str t); simpl; [|intros [= <-]; by auto].
  unfold mbind, io_bind, bind, path_exists, raise, lift, open_presentation, save.
  destruct (files w !! output_path (pptx name)) as [prs|] eqn:Hfile; simpl;
    [|intros [= <-]; by auto].
  destruct (validate_layout columns rows secs) as [[]|e0]; [|intros [= <-]; by auto 6].
  rewrite Hfile.
  destruct (build_slide t columns rows secs) as [slide|e0] eqn:Hb.
  { cbn [unwritable log]. destruct (bool_decide _); [|discriminate].
    intros [= <- _]. by auto 7. }
  intros [= <- _]. do 4 right. left.
  unfold build_slide, run_layout in Hb.
  destruct (truthy_int columns); [|destruct (truthy_int rows)];
    try destruct (mapM as_dict secs); simpl in Hb; congruence.
Qed.

Lemma own_count_never_mismatches (secs : list section_arg) e :
  validate_layout (Some (len secs)) None secs = Raise e
  \/ validate_layout None (Some (len secs)) secs = Raise e
  \/ validate_layout None None [] = Raise e ->
  e = MixedSizes \/ e = TotalSizeOutOfBand.
Proof.
  unfold validate_layout. simpl. rewrite Z.eqb_refl, !andb_false_r. simpl.
  unfold check_sizes.
  intros [H | [H | H]]; [| |discriminate];
    (destruct (existsb _ _); [|discriminate]);
    (destruct (negb _); [injection H as <-; by left|]);
    (destruct (omap _ _); [discriminate|]);
    (destruct (Qltb _ 98 || _); [injection H as <-; by right | discriminate]).
Qed.

(** The outcomes of the tool function [add_slide]. *)
Lemma tool_add_slide_cases ppt_name t columns rows layout secs (w : world) :
  let path := output_path (pptx ppt_name) in
  let drawn := if bool_decide (layout = Some "COLUMN") || bool_decide (layout = Some "ROW")
               then length (default [] secs) else 0%nat in
  match Agent.add_slide ppt_name t columns rows layout secs w with
  | (Agent.Message, w') =>
      exists prs slide,
        files w !! path = Some prs
        /\ files w' = <[path := prs ++ [slide]]> (files w)
        /\ title_text slide = t /\ length (shapes slide) = drawn
  | (Agent.ErrorPayload e, w') =>
      files w' = files w
      /\ e <> BothRowsAndColumns
      /\ (forall n, e <> ColumnCountMismatch n) /\ (forall n, e <> RowCountMismatch n)
  | (Agent.FilePath _, _) => False
  end.
Proof.
  intros path drawn. unfold Agent.add_slide, Agent.catching.
  set (ss := default [] secs) in *.
  set (call := if bool_decide (layout = Some "COLUMN") then _ else _).
  assert (exists c r s,
             call = add_slide ppt_name t c r s
             /\ (validate_layout c r s = validate_layout (Some (len ss)) None ss
                 \/ validate_layout c r s = validate_layout None (Some (len ss)) ss
                 \/ validate_layout c r s = validate_layout None None [])
             /\ (forall slide, build_slide t c r s = Ok slide ->
                               length (shapes slide) = drawn))
    as (c & r & s & -> & Hval & Hdraw).
  { subst call drawn.
    destruct (bool_decide (layout = Some "COLUMN")); [|destruct (bool_decide (layout = Some "ROW"))].
    - eexists _, _, _. split; [reflexivity|]. split; [by left|].
      intros slide Hb. apply build_slide_shapes in Hb. simpl orb. cbv iota.
      destruct (truthy_int (Some (len ss))) eqn:Htr.
      + destruct Hb as [Hh _]. by rewrite <- (length_fmap header_text), Hh, length_fmap.
      + simpl in Hb. rewrite Hb. simpl in Htr.
        apply negb_false_iff, Z.eqb_eq in Htr. unfold len in Htr. simpl. lia.
    - eexists _, _, _. split; [reflexivity|]. split; [by right; left|].
      intros slide Hb. apply build_slide_shapes in Hb. simpl orb. cbv iota.
      change (truthy_int None) with false in Hb. cbv iota in Hb.
      destruct (truthy_int (Some (len ss))) eqn:Htr.
      + destruct Hb as [Hh _]. by rewrite <- (length_fmap header_text), Hh, length_fmap.
      + rewrite Hb. simpl in Htr.
        apply negb_false_iff, Z.eqb_eq in Htr. unfold len in Htr. simpl. lia.
    - eexists _, _, _. split; [reflexivity|]. split; [by right; right|].
      intros slide Hb. apply build_slide_shapes in Hb. simpl in Hb. by rewrite Hb. }
  destruct (add_slide ppt_name t c r s w) as [[[]|e] w'] eqn:Hrun.
  - apply add_slide_ok_inv in Hrun as (prs & slide & Hfile & _ & Hb & Hfiles).
    exists prs, slide. repeat split; try done.
    + by eapply build_slide_title.
    + by apply Hdraw.
  - split; [by eapply add_slide_raise_keeps_files|].
    apply add_slide_raise_inv in Hrun.
    assert (e = PptNameRequired \/ e = SlideTitleRequired \/ e = FileNotFound (pptx ppt_name)
            \/ e = MixedSizes \/ e = TotalSizeOutOfBand \/ e = NotSubscriptable
            \/ e = SaveFailed) as He.
    { destruct Hrun as [-> | [-> | [-> | [Hv | [-> | ->]]]]]; auto 8.
      assert (e = MixedSizes \/ e = TotalSizeOutOfBand) as [-> | ->]; auto 7.
      apply (own_count_never_mismatches ss).
      destruct Hval as [<- | [<- | <-]]; auto. }
    split; [intros -> | split; intros n ->];
      repeat (destruct He as [He|He]; try discriminate); discriminate.
Qed.

(** X17: the tool function [add_slide] answers with a message exactly
    when a slide was appended, and that slide has one box per section
    under layout ['COLUMN'] or ['ROW'] and none under any other layout.
    When it answers with an error the files are unchanged, and the error
    is never one of the dimension errors (rows and columns both given, or
    a count that does not match): the counts it passes on are
    [len(sections)], whatever [columns] and [rows] it was given. *)
Theorem tool_add_slide_outcome ppt_name t columns rows layout secs (w : world) :
  let path := output_path (pptx ppt_name) in
  let drawn := if bool_decide (layout = Some "COLUMN") || bool_decide (layout = Some "ROW")
               then length (default [] secs) else 0%nat in
  match Agent.add_slide ppt_name t columns rows layout secs w with
  | (Agent.Message, w') =>
      exists prs slide,
        files w !! path = Some prs
        /\ files w' = <[path := prs ++ [slide]]> (files w)
        /\ title_text slide = t /\ length (shapes slide) = drawn
  | (Agent.ErrorPayload e, w') =>
      files w' = files w
      /\ e <> BothRowsAndColumns
      /\ (forall n, e <> ColumnCountMismatch n) /\ (forall n, e <> RowCountMismatch n)
  | (Agent.FilePath _, _) => False
  end.
Proof. exact (tool_add_slide_cases ppt_name t columns rows layout secs w). Qed.




(** ** The typed model against the slide-build checks *)

Lemma validate_layout_processed columns rows (secs secs' : list section_arg) :
  process <$> secs = process <$> secs' ->
  validate_layout columns rows secs = validate_layout columns rows secs'.
Proof.
  intros Hp. unfold validate_layout.
  assert (len secs = len secs') as ->.
  { unfold len. by rewrite <- (length_fmap process secs), Hp, length_fmap. }
  change (map process ?l) with (process <$> l). by rewrite Hp.
Qed.

(** X19: a slide with at least one section that the typed constructor
    accepts is never refused by the checks of [add_slide], whether its
    sections are handed over as [Section] objects or as the dictionaries
    [model_dump] makes of them.  (The converse fails: see C3.) *)
Theorem typed_slide_passes_add_slide_checks
    title lay cols rws (secs : list Section) name m :
  secs <> [] ->
  SlideModel_new title lay cols rws (Some secs) name = Ok m ->
  validate_layout cols rws (ArgModel <$> secs) = Ok tt
  /\ validate_layout cols rws (ArgDict ∘ model_dump <$> secs) = Ok tt.
Proof.
  intros Hne Hok.
  pose proof (typed_accepted_passes_slide_build _ _ _ _ _ _ _ Hne Hok) as H.
  split; [exact H|]. rewrite <- H. apply validate_layout_processed.
  by rewrite <- !list_fmap_compose.
Qed.

Lemma typed_slide_passes_add_slide_checks_witness :
  let secs := [mkSection "Wide" ["a"] (Some 66%Q); mkSection "Narrow" ["b"] (Some 33%Q)] in
  validate_layout (Some 2%Z) None (ArgModel <$> secs) = Ok tt
  /\ validate_layout (Some 2%Z) None (ArgDict ∘ model_dump <$> secs) = Ok tt.
Proof.
  intros secs.
  apply (typed_slide_passes_add_slide_checks "T" (Some COLUMN) (Some 2%Z) None secs None
           (mkSlideModel "T" (Some COLUMN) (Some 2%Z) None (Some secs) None)).
  - discriminate.
  - reflexivity.
Defined.

(** X20: rows and columns together.  The typed constructor accepts a
    slide that gives both a row count and a column count (both positive)
    exactly when the slide has no sections: its check sits behind the
    early return for an empty list.  [add_slide] refuses both counts
    together whatever the sections are. *)
Theorem rows_and_columns_together title lay (c r : Z) secs name :
  (0 < c)%Z -> (0 < r)%Z ->
  (is_ok (SlideModel_new title lay (Some c) (Some r) secs name) = true
   <-> secs = None \/ secs = Some [])
  /\ forall args, validate_layout (Some c) (Some r) args = Raise BothRowsAndColumns.
Proof.
  intros Hc Hr. split.
  - unfold SlideModel_new, validate_dimension.
    destruct (Z.leb_spec c 0); [lia|]. destruct (Z.leb_spec r 0); [lia|].
    cbn [rbind]. unfold validate_sections.
    assert (truthy_int (Some r) && truthy_int (Some c) = true) as Hboth.
    { simpl. destruct (Z.eqb_spec r 0); [lia|]. destruct (Z.eqb_spec c 0); [lia|]. done. }
    destruct secs as [[|s secs]|]; [| |].
    + split; [by right | done].
    + rewrite Hboth. split; [discriminate | intros [? | ?]; discriminate].
    + split; [by left | done].
  - intros args. unfold validate_layout. simpl.
    destruct (Z.eqb_spec c 0); [lia|]. destruct (Z.eqb_spec r 0); [lia|]. done.
Qed.

Lemma rows_and_columns_together_witness :
  (is_ok (SlideModel_new "T" None (Some 2%Z) (Some 3%Z) (Some []) None) = true
   <-> Some (@nil Section) = None \/ Some (@nil Section) = Some [])
  /\ forall args, validate_layout (Some 2%Z) (Some 3%Z) args = Raise BothRowsAndColumns.
Proof.
  apply (rows_and_columns_together "T" None 2 3 (Some (@nil Section)) None); lia.
Defined.

(** X26: the checks of [add_slide] look at the sum of the sizes and at no
    single size: for every number [q], sensible or not, two sections of
    sizes [q] and [100 - q] pass, where the typed model refuses any size
    outside (0, 100]. *)
Theorem slide_build_checks_no_single_size (q : Q) (h1 h2 : string) (c1 c2 : list string) :
  validate_layout (Some 2%Z) None
    [ArgDict (mkDict h1 c1 (SizeNum q)); ArgDict (mkDict h2 c2 (SizeNum (100 - q)))]
  = Ok tt
  /\ ((q <= 0)%Q \/ (100 < q)%Q -> Section_new h1 c1 (Some q) = Raise SizeOutOfRange).
Proof.
  split.
  - unfold validate_layout, check_sizes. simpl.
    assert (Qltb (py_sum [q; (100 - q)%Q]) 98 || Qgtb (py_sum [q; (100 - q)%Q]) 102 = false)
      as Hband.
    { apply out_of_band_false. unfold py_sum. simpl. lra. }
    unfold py_sum in *. simpl in *. by rewrite Hband.
  - intros Hq. unfold Section_new, validate_size.
    assert (Qle_bool q 0 || Qgtb q 100 = true) as ->; [|done].
    apply orb_true_iff. destruct Hq as [Hq | Hq].
    + left. by apply Qle_bool_iff.
    + right. by apply Qgtb_gt.
Qed.

Lemma slide_build_checks_no_single_size_witness :
  validate_layout (Some 2%Z) None
    [ArgDict (mkDict "A" [] (SizeNum 150)); ArgDict (mkDict "B" [] (SizeNum (100 - 150)))]
  = Ok tt
  /\ ((150 <= 0)%Q \/ (100 < 150)%Q -> Section_new "A" [] (Some 150%Q) = Raise SizeOutOfRange).
Proof. apply (slide_build_checks_no_single_size 150 "A" "B" [] []). Defined.

(** ** The routes of hello.py *)

(** The outcomes of the route [/delete_ppt]. *)
Lemma hello_delete_cases (rq : Hello.request_json) (w : world) :
  let name := default "" (Hello.rq_name rq) in
  let path := Hello.cwd_path (pptx name) in
  exists w',
    Hello.delete_ppt rq w =
    (Ok (if negb (truthy_str name) then (Hello.NameRequiredBody, 400%Z)
         else if bool_decide (is_Some (files w !! path))
              then (Hello.DeletedBody (pptx name), 200%Z)
              else (Hello.NotFoundBody (pptx name), 404%Z)), w')
    /\ files w' = if truthy_str name then delete path (files w) else files w.
Proof.
  intros name path. unfold Hello.delete_ppt. fold name.
  destruct (truthy_str name); simpl.
  - fold path. unfold mbind, io_bind, bind, path_exists, remove, mret, io_ret, ret.
    destruct (files w !! path) as [prs|] eqn:Hfile; simpl.
    + eexists. split; [reflexivity|]. done.
    + eexists. split; [reflexivity|]. simpl. by rewrite delete_id.
  - by exists w.
Qed.

(** X21: the route [/delete_ppt] answers 400 when no name is given (the
    key missing or empty), 404 when the file is not there, and 200 after
    removing it; only in the last case does a file change, and it is the
    file [<name>.pptx] that goes. *)
Theorem hello_delete_route (rq : Hello.request_json) (w : world) :
  let name := default "" (Hello.rq_name rq) in
  let path := Hello.cwd_path (pptx name) in
  exists w',
    Hello.delete_ppt rq w =
    (Ok (if negb (truthy_str name) then (Hello.NameRequiredBody, 400%Z)
         else if bool_decide (is_Some (files w !! path))
              then (Hello.DeletedBody (pptx name), 200%Z)
              else (Hello.NotFoundBody (pptx name), 404%Z)), w')
    /\ files w' = if truthy_str name then delete path (files w) else files w.
Proof. exact (hello_delete_cases rq w). Qed.

(** X22: the route [/create_ppt] followed by [/delete_ppt] for the same
    name answers 200 twice and leaves the files as they were without
    [<name>.pptx], given a name whose file can be written and the
    template in the working directory.  Where the file cannot be written
    [/create_ppt] raises out of the view and changes nothing. *)
Theorem hello_create_then_delete (rq : Hello.request_json) (w : world)
    (template : Presentation) :
  let path := Hello.cwd_path (pptx (default "" (Hello.rq_name rq))) in
  truthy_str (default "" (Hello.rq_name rq)) = true ->
  files w !! Hello.TEMPLATE = Some template ->
  if bool_decide (path ∈ unwritable w) then
    exists w1, Hello.create_ppt rq w = (Raise SaveFailed, w1) /\ files w1 = files w
  else
  exists body1 w1 body2 w2,
    Hello.create_ppt rq w = (Ok (body1, 200%Z), w1)
    /\ Hello.delete_ppt rq w1 = (Ok (body2, 200%Z), w2)
    /\ files w2 = delete (Hello.cwd_path (pptx (default "" (Hello.rq_name rq)))) (files w).
Proof.
  intros path Hname Htpl.
  unfold Hello.create_ppt. rewrite Hname.
  unfold mbind, io_bind, bind, open_presentation, save, mret, io_ret, ret, negb.
  cbv beta iota. unfold Presentation in *. rewrite Htpl.
  cbn [unwritable log]. fold path.
  destruct (bool_decide (path ∈ unwritable w)); [by eexists|].
  eexists _, _.
  pose proof (hello_delete_cases rq) as Hdel. cbv zeta in Hdel.
  rewrite Hname in Hdel. simpl negb in Hdel. cbv iota in Hdel.
  match goal with |- exists b w2, (_, ?w1) = _ /\ _ =>
    destruct (Hdel w1) as (w2 & Hrun & Hfiles) end.
  eexists _, w2. split; [reflexivity|].
  rewrite Hrun, Hfiles. cbn [files log].
  rewrite lookup_insert_eq, bool_decide_eq_true_2 by eauto.
  split; [reflexivity|]. by rewrite delete_insert_eq.
Qed.

Lemma hello_create_then_delete_witness :
  let w := mkWorld {[ Hello.TEMPLATE := [] ]} [] in
  let rq := Hello.mkRequest (Some "deck") None in
  exists body1 w1 body2 w2,
    Hello.create_ppt rq w = (Ok (body1, 200%Z), w1)
    /\ Hello.delete_ppt rq w1 = (Ok (body2, 200%Z), w2)
    /\ files w2 = delete (Hello.cwd_path (pptx (default "" (Hello.rq_name rq)))) (files w).
Proof.
  intros w rq. apply (hello_create_then_delete rq w []); reflexivity.
Defined.

(** ** The conversation loop *)

Lemma run_prompt_completed (replies : list Agent.reply) data (w : world) :
  Agent.status data = Agent.Completed ->
  Agent.run_prompt replies data w = (Agent.Returned data, w).
Proof. intros H. destruct replies; simpl; by rewrite H. Qed.

Lemma attempt_status status_after call (w : world) :
  Agent.status (fst (Agent.attempt status_after call w))
  = match call with Some _ => status_after | None => Agent.Error end.
Proof. unfold Agent.attempt. destruct call as [f|]; [|done]. by destruct (f w). Qed.

(** One function call ends the loop exactly when it is a final reply. *)
Lemma handle_function_call_status function_name a data (w : world) :
  Agent.status data <> Agent.Completed ->
  Agent.status (fst (Agent.handle_function_call function_name a data w)) = Agent.Completed
  <-> final_reply (Agent.FunctionCall function_name (Some a)) = true.
Proof.
  intros Hdata. unfold Agent.handle_function_call, final_reply.
  destruct (Agent.contains "create_presentation" function_name); simpl.
  { rewrite attempt_status. by destruct (Agent.call_create_presentation a). }
  destruct (Agent.contains "add_slide" function_name); simpl.
  { rewrite attempt_status. by destruct (Agent.call_add_slide a). }
  destruct (Agent.contains "save_presentation" function_name); simpl.
  { rewrite attempt_status. unfold Agent.call_save_presentation.
    destruct (Agent.only_name a); simpl; by split. }
  destruct (Agent.contains "delete_presentation" function_name); simpl.
  { rewrite attempt_status. unfold Agent.call_delete_presentation.
    destruct (Agent.only_name a); simpl; by split. }
  split; [done | discriminate].
Qed.

(** The replies that do not end the loop leave it running. *)
Lemma run_prompt_passes (pre : list Agent.reply) data (w : world) :
  Agent.status data <> Agent.Completed ->
  Forall (fun r => final_reply r = false /\ decodes r = true) pre ->
  exists data' w',
    Agent.status data' <> Agent.Completed
    /\ forall more,
         Agent.run_prompt (pre ++ more) data w = Agent.run_prompt more data' w'.
Proof.
  intros Hdata Hpre. revert data w Hdata.
  induction Hpre as [|r pre [Hfin Hdec] _ IH]; intros data w Hdata.
  - by exists data, w.
  - destruct r as [fn [a|]|finish]; [| discriminate |].
    + pose proof (handle_function_call_status fn a data w Hdata) as Hh.
      destruct (Agent.handle_function_call fn a data w) as [data1 w1] eqn:Hcall.
      cbn [fst] in Hh.
      destruct (IH data1 w1) as (data' & w' & Hst & Hrun).
      { rewrite Hh. congruence. }
      exists data', w'. split; [done|]. intros more.
      cbn [app Agent.run_prompt]. rewrite Hcall, Hrun.
      by destruct (Agent.status data).
    + simpl in Hfin.
      destruct (IH data w Hdata) as (data' & w' & Hst & Hrun).
      exists data', w'. split; [done|]. intros more.
      cbn [app Agent.run_prompt]. rewrite Hfin, Hrun.
      by destruct (Agent.status data).
Qed.

(** X23: [create_presentation_from_prompt] returns at the first reply
    that is final (a plain reply finished with "stop", or a call of
    [save_presentation] or [delete_presentation] whose arguments bind),
    with status "completed"; the replies after it are never asked for, and
    neither the result nor the files depend on them. *)
Theorem prompt_returns_at_first_final_reply
    (pre : list Agent.reply) (r : Agent.reply) (rest : list Agent.reply) (w : world) :
  Forall (fun x => final_reply x = false /\ decodes x = true) pre ->
  final_reply r = true ->
  exists data w',
    Agent.create_presentation_from_prompt (pre ++ r :: rest) w = (Agent.Returned data, w')
    /\ Agent.status data = Agent.Completed
    /\ Agent.create_presentation_from_prompt (pre ++ [r]) w = (Agent.Returned data, w').
Proof.
  intros Hpre Hfin. unfold Agent.create_presentation_from_prompt.
  assert (forall more data (w1 : world),
             Agent.status data <> Agent.Completed ->
             exists data' w',
               Agent.run_prompt (r :: more) data w1 = (Agent.Returned data', w')
               /\ Agent.status data' = Agent.Completed
               /\ Agent.run_prompt [r] data w1 = (Agent.Returned data', w')) as Hlast.
  { intros more data w1 Hdata. cbn [Agent.run_prompt].
    destruct r as [fn [a|]|finish]; [| discriminate |].
    - pose proof (handle_function_call_status fn a data w1 Hdata) as Hh.
      destruct (Agent.handle_function_call fn a data w1) as [data1 w2]. cbn [fst] in Hh.
      apply Hh in Hfin. exists data1, w2.
      rewrite !run_prompt_completed by done.
      destruct (Agent.status data) eqn:Hst; [| |congruence]; by rewrite Hfin.
    - simpl in Hfin. rewrite Hfin.
      exists (Agent.mkData Agent.Completed (Agent.answer data)), w1.
      rewrite !run_prompt_completed by done.
      destruct (Agent.status data) eqn:Hst; [done | done | congruence]. }
  destruct (run_prompt_passes pre (Agent.mkData Agent.InProgress None) w
              ltac:(discriminate) Hpre) as (d1 & w1 & Hd1 & Hrun).
  rewrite !Hrun. apply (Hlast rest d1 w1 Hd1).
Qed.

Lemma prompt_returns_at_first_final_reply_witness :
  let w := mkWorld {[ TEMPLATE := [] ]} [] in
  let no_args := Agent.mkArgs None None None None None None None None None false in
  let create := Agent.FunctionCall "create_presentation"
                  (Some (Agent.mkArgs (Some "test_pres") (Some "Test Presentation")
                           None None None None None None None false)) in
  let add := Agent.FunctionCall "add_slide"
               (Some (Agent.mkArgs None None None (Some "test_pres") (Some "Introduction")
                        None None None
                        (Some [ArgDict (mkDict "Overview" ["Point 1"] SizeMissing)]) false)) in
  let save := Agent.FunctionCall "save_presentation"
                (Some (Agent.mkArgs (Some "test_pres") None None None None None None
                         None None false)) in
  exists data w',
    Agent.create_presentation_from_prompt ([create; add] ++ save :: [Agent.Plain "stop"]) w
    = (Agent.Returned data, w')
    /\ Agent.status data = Agent.Completed
    /\ Agent.create_presentation_from_prompt ([create; add] ++ [save]) w
       = (Agent.Returned data, w').
Proof.
  intros w no_args create add save.
  apply (prompt_returns_at_first_final_reply [create; add] save [Agent.Plain "stop"] w).
  - repeat constructor.
  - reflexivity.
Defined.

(** X24: without a final reply the loop never returns: an error answer
    of a tool, a call that raises [TypeError], a function name that
    matches no tool and a plain reply that did not finish with "stop" all
    leave it asking for the next reply. *)
Theorem prompt_needs_a_final_reply (replies : list Agent.reply) (w : world) :
  Forall (fun r => final_reply r = false) replies ->
  returned (fst (Agent.create_presentation_from_prompt replies w)) = false.
Proof.
  intros Hall. unfold Agent.create_presentation_from_prompt.
  assert (forall data0 (w0 : world),
             Agent.status data0 <> Agent.Completed ->
             returned (fst (Agent.run_prompt replies data0 w0)) = false) as H;
    [|by apply H].
  induction Hall as [|r replies Hfin _ IH]; intros data0 w0 Hst.
  - simpl. destruct (Agent.status data0) eqn:Hs; [done | done | congruence].
  - cbn [Agent.run_prompt].
    destruct (Agent.status data0) eqn:Hs; [| |congruence];
      (destruct r as [fn [a|]|finish]; [| done |];
       [ pose proof (handle_function_call_status fn a data0 w0 ltac:(congruence)) as Hh;
         destruct (Agent.handle_function_call fn a data0 w0) as [data1 w1];
         cbn [fst] in Hh; apply IH; rewrite Hh; congruence
       | simpl in Hfin; rewrite Hfin; apply IH; congruence ]).
Qed.

Lemma prompt_needs_a_final_reply_witness :
  let w := mkWorld {[ TEMPLATE := [] ]} [] in
  let bad_add := Agent.FunctionCall "add_slide"
                   (Some (Agent.mkArgs None None None (Some "missing") (Some "Intro")
                            None None None None false)) in
  let untitled_create := Agent.FunctionCall "create_presentation"
                   (Some (Agent.mkArgs (Some "deck") None None None None None None
                            None None false)) in
  returned (fst (Agent.create_presentation_from_prompt
                   [bad_add; untitled_create; Agent.Plain "length"] w)) = false.
Proof.
  intros w bad_add untitled_create.
  apply (prompt_needs_a_final_reply [bad_add; untitled_create; Agent.Plain "length"] w).
  by repeat constructor.
Defined.

Lemma tool_add_slide_no_path ppt_name t columns rows layout secs (w : world) p :
  fst (Agent.add_slide ppt_name t columns rows layout secs w) <> Agent.FilePath p.
Proof.
  pose proof (tool_add_slide_cases ppt_name t columns rows layout secs w) as H.
  cbv zeta in H. intros Heq.
  destruct (Agent.add_slide ppt_name t columns rows layout secs w) as [[| |] w'];
    simpl in Heq; try discriminate. done.
Qed.

(** X25: the result of the loop is the answer of the last tool call.
    When the conversation closes with an [add_slide] call followed by a
    plain "stop", the result has no ["file_path"] entry, whatever was
    created or saved before. *)
Theorem prompt_result_after_add_slide_has_no_path
    (pre : list Agent.reply) (function_name : string) (a : Agent.function_args)
    (rest : list Agent.reply) (w : world) :
  Forall (fun x => final_reply x = false /\ decodes x = true) pre ->
  Agent.contains "create_presentation" function_name = false ->
  Agent.contains "add_slide" function_name = true ->
  exists data w',
    Agent.create_presentation_from_prompt
      (pre ++ Agent.FunctionCall function_name (Some a) :: Agent.Plain "stop" :: rest) w
    = (Agent.Returned data, w')
    /\ carries_file_path data = false.
Proof.
  intros Hpre Hcreate Hadd. unfold Agent.create_presentation_from_prompt.
  destruct (run_prompt_passes pre (Agent.mkData Agent.InProgress None) w
              ltac:(discriminate) Hpre) as (d1 & w1 & Hd1 & Hrun).
  rewrite Hrun. cbn [Agent.run_prompt].
  unfold Agent.handle_function_call. rewrite Hcreate, Hadd.
  assert (exists d2 w2, Agent.attempt Agent.InProgress (Agent.call_add_slide a) w1 = (d2, w2)
                        /\ Agent.status d2 <> Agent.Completed
                        /\ carries_file_path d2 = false) as (d2 & w2 & -> & Hst & Hpath).
  { unfold Agent.attempt, Agent.call_add_slide.
    destruct (Agent.a_ppt_name a) as [ppt_name|]; [|by eexists _, _].
    destruct (Agent.a_slide_title a) as [slide_title|]; [|by eexists _, _].
    destruct (_ || Agent.a_other_keys a); [by eexists _, _|].
    pose proof (tool_add_slide_no_path ppt_name slide_title (Agent.a_columns a)
                  (Agent.a_rows a) (Agent.a_layout a) (Agent.a_sections a) w1) as Hno.
    destruct (Agent.add_slide _ _ _ _ _ _ w1) as [r w2]. cbn [fst] in Hno.
    eexists _, _. split; [reflexivity|]. split; [discriminate|].
    unfold carries_file_path. simpl. destruct r; try done. by destruct (Hno p). }
  exists (Agent.mkData Agent.Completed (Agent.answer d2)), w2.
  change (String.eqb "stop" "stop") with true. cbv iota.
  rewrite run_prompt_completed by done.
  split; [|exact Hpath].
  destruct (Agent.status d1) eqn:Hs1; [| |congruence];
    (destruct (Agent.status d2) eqn:Hs2; [| |congruence]; reflexivity).
Qed.

Lemma prompt_result_after_add_slide_has_no_path_witness :
  let w := mkWorld {[ TEMPLATE := [] ]} [] in
  let create := Agent.FunctionCall "create_presentation"
                  (Some (Agent.mkArgs (Some "deck") (Some "Kickoff")
                           None None None None None None None false)) in
  let add := Agent.mkArgs None None None (Some "deck") (Some "Agenda")
               None None None None false in
  exists data w',
    Agent.create_presentation_from_prompt
      ([create] ++ Agent.FunctionCall "add_slide" (Some add) :: Agent.Plain "stop" :: []) w
    = (Agent.Returned data, w')
    /\ carries_file_path data = false.
Proof.
  intros w create add.
  apply (prompt_result_after_add_slide_has_no_path [create] "add_slide" add [] w).
  - by repeat constructor.
  - reflexivity.
  - reflexivity.
Defined.
